(** * Region masks: overlap slices, [to_image], [cutout], [multiply]

    A shallow embedding of [regions/core/mask.py] (class [Mask]) together
    with the fragment of numpy that the class calls: integer slices with
    Python's negative-index normalisation, basic 2D slicing, slice
    assignment with broadcasting and dtype casting, [np.zeros] and
    elementwise multiplication.  Exceptions are modelled by an error monad,
    Python's [None] by a constructor of [pyval]. *)

From Stdlib Require Import ZArith QArith Lia.
From stdpp Require Import base list strings.

Open Scope Z_scope.

(** ** Exceptions *)

Inductive exn := ValueError | TypeError | OverflowError.

Inductive result (A : Type) :=
| Ok (a : A)
| Raise (e : exn).
Arguments Ok {A} a.
Arguments Raise {A} e.

Definition bind {A B} (r : result A) (k : A -> result B) : result B :=
  match r with
  | Ok a => k a
  | Raise e => Raise e
  end.

Notation "'let*' x ':=' r 'in' k" := (bind r (fun x => k))
  (at level 10, x name, r at level 100, k at level 200).

(** ** The numpy fragment *)

Module np.

(** Element types.  Floating-point values are abstracted as rationals;
    the only cast that changes a value is float-to-integer, which
    truncates towards zero.  Integer elements are 64-bit: a Python number
    stored into them must fit, and their products wrap around. *)
Inductive dtype := int64 | float64.

Definition dtype_eqb (a b : dtype) : bool :=
  match a, b with
  | int64, int64 | float64, float64 => true
  | _, _ => false
  end.

(** [int(q)]: the integer part, rounded towards zero. *)
Definition to_int (q : Q) : Z := Z.quot (Qnum q) (Zpos (Qden q)).

Definition trunc (q : Q) : Q := inject_Z (to_int q).

(** Whether a Python float can be stored in an element of the dtype: an
    integer element takes [int(x)], which must lie in the 64-bit range. *)
Definition fits_dtype (dt : dtype) (x : Q) : bool :=
  match dt with
  | float64 => true
  | int64 => (- 2 ^ 63 <=? to_int x) && (to_int x <=? 2 ^ 63 - 1)
  end.

(** Two's-complement wrap-around of a 64-bit product. *)
Definition wrap64 (z : Z) : Z := (z + 2 ^ 63) mod 2 ^ 64 - 2 ^ 63.

(** The product of two elements in the result dtype. *)
Definition mul (dt : dtype) (x y : Q) : Q :=
  match dt with
  | int64 => inject_Z (wrap64 (to_int x * to_int y))
  | float64 => (x * y)%Q
  end.

Definition cast (from to : dtype) (v : Q) : Q :=
  if dtype_eqb from to then v
  else match to with
       | int64 => trunc v
       | float64 => v
       end.

(** Result dtype of a binary operation. *)
Definition promote (a b : dtype) : dtype :=
  match a, b with
  | int64, int64 => int64
  | _, _ => float64
  end.

(** Unit tags of [astropy.units.Quantity] arrays. *)
Inductive unit_tag :=
| Unit (name : string)
| UMul (u v : unit_tag).

(** [slice(start, stop)] with integer bounds and no step. *)
Record slice := Slice { start : Z; stop : Z }.

(** The number of indices in [range(start, stop)]. *)
Definition slice_len (s : slice) : Z := Z.max 0 (stop s - start s).

(** A nonempty range that lies within an axis of length [n]. *)
Definition in_bounds (s : slice) (n : Z) : Prop :=
  0 <= start s /\ start s < stop s /\ stop s <= n.

(** A 2D array: row-major rows, the column count (kept apart so that a
    [0 x n] array has a shape), the element dtype and, for a [Quantity],
    its unit. *)
Record ndarray := NdArray {
  dtype_of : dtype;
  unit_of : option unit_tag;
  ncols : nat;
  rows : list (list Q)
}.

Definition nrows (a : ndarray) : nat := length (rows a).

Definition shape (a : ndarray) : Z * Z :=
  (Z.of_nat (nrows a), Z.of_nat (ncols a)).

(** Every row has [ncols] elements. *)
Definition wf (a : ndarray) : Prop :=
  Forall (fun r => length r = ncols a) (rows a).

Definition shape_eqb (s t : Z * Z) : bool :=
  (fst s =? fst t) && (snd s =? snd t).

Definition item (a : ndarray) (i j : nat) : option Q :=
  match rows a !! i with
  | Some r => r !! j
  | None => None
  end.

Definition with_rows (a : ndarray) (rs : list (list Q)) : ndarray :=
  NdArray (dtype_of a) (unit_of a) (ncols a) rs.

Definition with_unit (a : ndarray) (u : option unit_tag) : ndarray :=
  NdArray (dtype_of a) u (ncols a) (rows a).

(** [np.zeros((ny, nx), dtype)]: negative dimensions are refused. *)
Definition zeros (ny nx : Z) (dt : dtype) : result ndarray :=
  if (ny <? 0) || (nx <? 0) then Raise ValueError
  else Ok (NdArray dt None (Z.to_nat nx)
             (replicate (Z.to_nat ny) (replicate (Z.to_nat nx) 0%Q))).

(** Python's normalisation of one slice bound against an axis of
    length [n]: a negative bound counts from the end, then the bound is
    clamped into [0, n]. *)
Definition clip (i n : Z) : Z :=
  if i <? 0 then Z.max (i + n) 0 else Z.min i n.

(** [slice.indices(n)] as an offset and a length. *)
Definition indices (s : slice) (n : nat) : nat * nat :=
  let a := clip (start s) (Z.of_nat n) in
  let b := clip (stop s) (Z.of_nat n) in
  (Z.to_nat a, Z.to_nat (b - a)).

Definition map2d {A B} (f : A -> B) (rs : list (list A)) : list (list B) :=
  fmap (M:=list) (fmap (M:=list) f) rs.

Definition sub {A} (off len : nat) (l : list A) : list A :=
  take len (drop off l).

(** [a[sy, sx]]: basic slicing never raises. *)
Definition getitem (a : ndarray) (s : slice * slice) : ndarray :=
  let '(y0, ly) := indices (fst s) (nrows a) in
  let '(x0, lx) := indices (snd s) (ncols a) in
  NdArray (dtype_of a) (unit_of a) lx (sub x0 lx <$> sub y0 ly (rows a)).

(** Broadcasting of a value of shape [(vh, vw)] to [(h, w)]: an axis
    either matches or has length one. *)
Definition broadcastable (vh vw h w : nat) : bool :=
  ((vh =? h)%nat || (vh =? 1)%nat) && ((vw =? w)%nat || (vw =? 1)%nat).

Definition stretch {A} (n : nat) (l : list A) : list A :=
  if (length l =? n)%nat then l
  else match l with
       | [x] => replicate n x
       | _ => l
       end.

Definition broadcast_rows (v : ndarray) (h w : nat) : list (list Q) :=
  stretch w <$> stretch h (rows v).

(** Overwrite [length v] elements of [l] from offset [off]. *)
Definition splice {A} (off : nat) (v l : list A) : list A :=
  take off l ++ v ++ drop (off + length v) l.

(** [a[sy, sx] = v]: the value is broadcast to the shape of the selected
    block and cast to the dtype of [a]; a value that cannot be broadcast
    raises [ValueError] and leaves [a] untouched. *)
Definition setitem (a : ndarray) (s : slice * slice) (v : ndarray)
  : result ndarray :=
  let '(y0, ly) := indices (fst s) (nrows a) in
  let '(x0, lx) := indices (snd s) (ncols a) in
  if broadcastable (nrows v) (ncols v) ly lx then
    let vb := map2d (cast (dtype_of v) (dtype_of a)) (broadcast_rows v ly lx) in
    Ok (with_rows a (take y0 (rows a)
                     ++ zip_with (splice x0) vb (sub y0 ly (rows a))
                     ++ drop (y0 + ly) (rows a)))
  else Raise ValueError.

(** [a[:] = x] for a Python float [x]: the scalar is converted to the
    dtype of [a] first, which raises [OverflowError] when [int(x)] does not
    fit an integer dtype. *)
Definition fill (a : ndarray) (x : Q) : result ndarray :=
  if fits_dtype (dtype_of a) x then
    Ok (with_rows a (map2d (fun _ => cast float64 (dtype_of a) x) (rows a)))
  else Raise OverflowError.

(** [a.astype(dt)] *)
Definition astype (a : ndarray) (dt : dtype) : ndarray :=
  NdArray dt (unit_of a) (ncols a) (map2d (cast (dtype_of a) dt) (rows a)).

(** [u.Quantity(a, unit=u)]: a copy of [a] tagged with the unit; astropy
    converts an integer array to float. *)
Definition quantity (a : ndarray) (u : unit_tag) : ndarray :=
  with_unit (astype a float64) (Some u).

Definition mul_unit (u v : option unit_tag) : option unit_tag :=
  match u, v with
  | Some a, Some b => Some (UMul a b)
  | Some a, None => Some a
  | None, w => w
  end.

(** [a * b] elementwise, both operands broadcast to the common shape. *)
Definition multiply (a b : ndarray) : result ndarray :=
  let h := if (nrows a =? 1)%nat then nrows b else nrows a in
  let w := if (ncols a =? 1)%nat then ncols b else ncols a in
  if broadcastable (nrows a) (ncols a) h w
     && broadcastable (nrows b) (ncols b) h w then
    Ok (NdArray (promote (dtype_of a) (dtype_of b))
          (mul_unit (unit_of a) (unit_of b)) w
          (zip_with (zip_with (mul (promote (dtype_of a) (dtype_of b))))
             (broadcast_rows a h w) (broadcast_rows b h w)))
  else Raise ValueError.

End np.

(** A Python value returned by the public methods: [None] or an array. *)
Inductive pyval :=
| PyNone
| PyArr (a : np.ndarray).

(** [x * a] where [x] may be [None]: [None] has no [__mul__] and numpy
    cannot multiply it either, so Python raises [TypeError]. *)
Definition py_mul (x : pyval) (a : np.ndarray) : result pyval :=
  match x with
  | PyNone => Raise TypeError
  | PyArr c => let* r := np.multiply c a in Ok (PyArr r)
  end.

(** ** Bounding boxes *)

(** Modelled from the spec: the [BoundingBox] class is not among the
    sources; the spec gives its integer extents (half-open, exclusive
    maxima), its [shape] [(iymax - iymin, ixmax - ixmin)], its [slices] (the
    pair of index ranges over its own extents, in [(y, x)] order) and its
    invariant [ixmax > ixmin], [iymax > iymin]. *)
Record BoundingBox := {
  ixmin : Z;
  ixmax : Z;
  iymin : Z;
  iymax : Z
}.

Definition bbox_shape (b : BoundingBox) : Z * Z :=
  (iymax b - iymin b, ixmax b - ixmin b).

Definition bbox_slices (b : BoundingBox) : np.slice * np.slice :=
  (np.Slice (iymin b) (iymax b), np.Slice (ixmin b) (ixmax b)).

Definition bbox_ok (b : BoundingBox) : Prop :=
  ixmin b < ixmax b /\ iymin b < iymax b.

(** The four-inequality test of [_overlap_slices] against a target of
    shape [(H, W)]. *)
Definition no_overlap (b : BoundingBox) (H W : Z) : Prop :=
  ixmin b >= W \/ iymin b >= H \/ ixmax b <= 0 \/ iymax b <= 0.

(** The bounding box lies within [[0, H) x [0, W)]. *)
Definition inside (b : BoundingBox) (H W : Z) : Prop :=
  0 <= ixmin b /\ ixmax b <= W /\ 0 <= iymin b /\ iymax b <= H.

Global Instance inside_dec b H W : Decision (inside b H W).
Proof. unfold inside. apply _. Defined.

(** The ranges that [_overlap_slices] computes on an overlap: those of
    the target frame and those of the mask's local frame. *)
Definition large_slices (b : BoundingBox) (H W : Z) : np.slice * np.slice :=
  (np.Slice (Z.max (iymin b) 0) (Z.min (iymax b) H),
   np.Slice (Z.max (ixmin b) 0) (Z.min (ixmax b) W)).

Definition small_slices (b : BoundingBox) (H W : Z) : np.slice * np.slice :=
  (np.Slice (Z.max (- iymin b) 0) (Z.min (iymax b - iymin b) (H - iymin b)),
   np.Slice (Z.max (- ixmin b) 0) (Z.min (ixmax b - ixmin b) (W - ixmin b))).

Global Instance no_overlap_dec b H W : Decision (no_overlap b H W).
Proof. unfold no_overlap. apply _. Defined.

(** One axis [[lo, hi)] of a box against an axis of length [n]: numpy's
    normalisation of [slice(lo, hi)] keeps all [hi - lo] indices when the
    range lies within the axis, and also when it lies wholly at negative
    indices that all count back from the end into the axis. *)
Definition axis_fits (lo hi n : Z) : Prop :=
  (0 <= lo /\ hi <= n) \/ (hi < 0 /\ 0 <= lo + n).

(** Both axes of the box keep their length under the box's own slices. *)
Definition fits (b : BoundingBox) (H W : Z) : Prop :=
  axis_fits (iymin b) (iymax b) H /\ axis_fits (ixmin b) (ixmax b) W.

Global Instance fits_dec b H W : Decision (fits b H W).
Proof. unfold fits, axis_fits. apply _. Defined.

(** ** The [Mask] class *)

Record Mask := {
  data : np.ndarray;
  bbox : BoundingBox
}.

(** [Mask.__init__] *)
Definition Mask_init (d : np.ndarray) (b : BoundingBox) : result Mask :=
  if negb (np.shape_eqb (np.shape d) (bbox_shape b)) then Raise ValueError
  else Ok {| data := d; bbox := b |}.

(** [Mask.shape] *)
Definition Mask_shape (m : Mask) : Z * Z := np.shape (data m).

(** What [__init__] establishes, for a rectangular data array. *)
Definition Mask_ok (m : Mask) : Prop :=
  np.wf (data m) /\ Mask_shape m = bbox_shape (bbox m).

(** [Mask._overlap_slices]; the result [(None, None)] is [None], a pair of
    slice tuples [(slices_large, slices_small)] is [Some]. *)
Definition _overlap_slices (m : Mask) (shape : list Z)
  : result (option ((np.slice * np.slice) * (np.slice * np.slice))) :=
  match shape with
  | [shape0; shape1] =>
      let xmin := ixmin (bbox m) in
      let xmax := ixmax (bbox m) in
      let ymin := iymin (bbox m) in
      let ymax := iymax (bbox m) in
      if (xmin >=? shape1) || (ymin >=? shape0) || (xmax <=? 0) || (ymax <=? 0)
      then Ok None
      else
        let slices_large :=
          (np.Slice (Z.max ymin 0) (Z.min ymax shape0),
           np.Slice (Z.max xmin 0) (Z.min xmax shape1)) in
        let slices_small :=
          (np.Slice (Z.max (- ymin) 0) (Z.min (ymax - ymin) (shape0 - ymin)),
           np.Slice (Z.max (- xmin) 0) (Z.min (xmax - xmin) (shape1 - xmin))) in
        Ok (Some (slices_large, slices_small))
  | _ => Raise ValueError
  end.

(** The body of the [try] in [to_image]: direct placement through the
    bounding box's own slices into the freshly zeroed [mask]. *)
Definition to_image_try (m : Mask) (mask : np.ndarray) : result np.ndarray :=
  np.setitem mask (bbox_slices (bbox m)) (data m).

(** The body of the [except ValueError] in [to_image]. *)
Definition to_image_fallback (m : Mask) (shape0 shape1 : Z) : result pyval :=
  let* os := _overlap_slices m [shape0; shape1] in
  match os with
  | None => Ok PyNone
  | Some (slices_large, slices_small) =>
      let* mask := np.zeros shape0 shape1 np.float64 in
      let* mask' := np.setitem mask slices_large
                      (np.getitem (data m) slices_small) in
      Ok (PyArr mask')
  end.

(** [Mask.to_image]; [np.zeros] runs before the [try], so that its
    [ValueError] is not caught. *)
Definition to_image (m : Mask) (shape : list Z) : result pyval :=
  match shape with
  | [shape0; shape1] =>
      let* mask := np.zeros shape0 shape1 np.float64 in
      match to_image_try m mask with
      | Ok mask' => Ok (PyArr mask')
      | Raise ValueError => to_image_fallback m shape0 shape1
      | Raise e => Raise e
      end
  | _ => Raise ValueError
  end.

(** The first statement of [cutout]: the direct slice of the data. *)
Definition cutout_fast (m : Mask) (d : np.ndarray) : np.ndarray :=
  np.getitem d (bbox_slices (bbox m)).

(** The body of [if cutout.shape != self.shape] in [cutout]. *)
Definition cutout_fallback (m : Mask) (d : np.ndarray) (fill_value : Q)
  : result pyval :=
  let* os := _overlap_slices m [fst (np.shape d); snd (np.shape d)] in
  match os with
  | None => Ok PyNone
  | Some (slices_large, slices_small) =>
      let* c := np.zeros (fst (Mask_shape m)) (snd (Mask_shape m))
                  (np.dtype_of d) in
      let* c1 := np.fill c fill_value in
      let* c' := np.setitem c1 slices_small (np.getitem d slices_large) in
      Ok (PyArr (match np.unit_of d with
                 | Some u => np.quantity c' u
                 | None => c'
                 end))
  end.

(** [Mask.cutout] *)
Definition cutout (m : Mask) (d : np.ndarray) (fill_value : Q) : result pyval :=
  let c := cutout_fast m d in
  if negb (np.shape_eqb (np.shape c) (Mask_shape m)) then
    cutout_fallback m d fill_value
  else Ok (PyArr c).

(** [Mask.multiply] *)
Definition multiply (m : Mask) (d : np.ndarray) (fill_value : Q)
  : result pyval :=
  let* c := cutout m d fill_value in
  py_mul c (data m).

(** ** Pixels *)

(** The pixel [(y, x)] of the data's frame lies within the data. *)
Definition in_extent (d : np.ndarray) (y x : Z) : Prop :=
  (0 <= y < fst (np.shape d)) /\ (0 <= x < snd (np.shape d)).

Global Instance in_extent_dec d y x : Decision (in_extent d y x).
Proof. unfold in_extent. apply _. Defined.

(** The pixel [(y, x)] of the target's frame lies within the bounding box. *)
Definition in_box (b : BoundingBox) (y x : Z) : Prop :=
  (iymin b <= y < iymax b) /\ (ixmin b <= x < ixmax b).

Global Instance in_box_dec b y x : Decision (in_box b y x).
Proof. unfold in_box. apply _. Defined.

(** The dtype of the array that the fallback of [cutout] returns: that of
    the data, turned into float where the array is made a [Quantity]. *)
Definition fallback_dtype (d : np.ndarray) : np.dtype :=
  match np.unit_of d with
  | Some _ => np.float64
  | None => np.dtype_of d
  end.

(** What a cutout of the data [d] over an overlapping mask must be: an
    array with the mask's shape and the data's unit, holding the data where
    the mask's pixel lies within the data and elsewhere the fill value, a
    Python float, cast to the data's dtype; both are seen through the
    cast from the data's dtype to the array's own. *)
Definition is_cutout (m : Mask) (d : np.ndarray) (fill_value : Q)
    (a : np.ndarray) : Prop :=
  np.wf a /\ np.shape a = Mask_shape m /\ np.unit_of a = np.unit_of d /\
  forall i j, (i < np.nrows (data m))%nat -> (j < np.ncols (data m))%nat ->
    np.item a i j =
      if decide (in_extent d (iymin (bbox m) + Z.of_nat i)
                             (ixmin (bbox m) + Z.of_nat j))
      then np.cast (np.dtype_of d) (np.dtype_of a) <$>
             np.item d (Z.to_nat (iymin (bbox m) + Z.of_nat i))
                       (Z.to_nat (ixmin (bbox m) + Z.of_nat j))
      else Some (np.cast (np.dtype_of d) (np.dtype_of a)
                   (np.cast np.float64 (np.dtype_of d) fill_value)).

(** What the image of the mask in a target of shape [(H, W)] must be: the
    weights, cast to the float dtype of [np.zeros], at the pixels of the
    bounding box, zero elsewhere. *)
Definition is_image (m : Mask) (H W : Z) (a : np.ndarray) : Prop :=
  np.wf a /\ np.shape a = (H, W) /\
  np.dtype_of a = np.float64 /\ np.unit_of a = None /\
  forall i j, Z.of_nat i < H -> Z.of_nat j < W ->
    np.item a i j =
      if decide (in_box (bbox m) (Z.of_nat i) (Z.of_nat j))
      then np.cast (np.dtype_of (data m)) np.float64 <$>
             np.item (data m) (Z.to_nat (Z.of_nat i - iymin (bbox m)))
                              (Z.to_nat (Z.of_nat j - ixmin (bbox m)))
      else Some 0%Q.

(** ** Sample data *)

Definition plain (dt : np.dtype) (w : nat) (rs : list (list Q)) : np.ndarray :=
  np.NdArray dt None w rs.

Definition box (x0 x1 y0 y1 : Z) : BoundingBox :=
  {| ixmin := x0; ixmax := x1; iymin := y0; iymax := y1 |}.

Definition ones (dt : np.dtype) (h w : nat) : np.ndarray :=
  plain dt w (replicate h (replicate w 1%Q)).

(** A [5 x 5] mask that sticks out of a [4 x 4] target at the top left. *)
Definition m55 : Mask :=
  {| data := ones np.float64 5 5; bbox := box (-2) 3 (-2) 3 |}.

(** A [4 x 4] integer image holding 1 to 16. *)
Definition d44 : np.ndarray :=
  plain np.int64 4
    [[1; 2; 3; 4]; [5; 6; 7; 8]; [9; 10; 11; 12]; [13; 14; 15; 16]]%Q.

(** The same image as a float [Quantity] in Jy. *)
Definition q44 : np.ndarray :=
  np.NdArray np.float64 (Some (np.Unit "Jy")) 4 (np.rows d44).

(** The integer image as a [Quantity] in counts. *)
Definition qi44 : np.ndarray :=
  np.NdArray np.int64 (Some (np.Unit "ct")) 4 (np.rows d44).

Definition w22 : np.ndarray := plain np.float64 2 [[1; 2]; [3; 4]]%Q.

(** [2 x 2] masks: within a [4 x 4] image, across its top left corner,
    beyond its bottom right corner, and wholly at negative indices. *)
Definition m_in : Mask := {| data := w22; bbox := box 1 3 1 3 |}.
Definition m_part : Mask := {| data := w22; bbox := box (-1) 1 (-1) 1 |}.
Definition m_far : Mask := {| data := w22; bbox := box 5 7 5 7 |}.
Definition m_neg : Mask := {| data := w22; bbox := box (-3) (-1) (-3) (-1) |}.

(** A mask of one pixel beyond the bottom right corner of a [4 x 4]
    image. *)
Definition m_dot : Mask :=
  {| data := ones np.float64 1 1; bbox := box 5 6 5 6 |}.

(** A mask one pixel wide and high at the origin. *)
Definition m11 : Mask :=
  {| data := ones np.float64 1 1; bbox := box 0 1 0 1 |}.

(** ** Lists: blocks and overwriting *)

Section lists.
Context {A : Type}.
Implicit Types l v : list A.

Lemma length_sub off len l :
  (off + len <= length l)%nat -> length (np.sub off len l) = len.
Proof. intros. unfold np.sub. rewrite length_take, length_drop. lia. Qed.

Lemma lookup_sub off len l i :
  (i < len)%nat -> np.sub off len l !! i = l !! (off + i)%nat.
Proof. intros. unfold np.sub. rewrite lookup_take_lt, lookup_drop; auto. Qed.

Lemma sub_all l : np.sub 0 (length l) l = l.
Proof. unfold np.sub. rewrite drop_0. apply take_ge. lia. Qed.

Lemma length_splice off v l :
  (off + length v <= length l)%nat -> length (np.splice off v l) = length l.
Proof.
  intros. unfold np.splice.
  rewrite !length_app, length_take, length_drop. lia.
Qed.

Lemma lookup_splice off v l j :
  (off + length v <= length l)%nat ->
  np.splice off v l !! j =
    if decide (off <= j < off + length v)%nat then v !! (j - off)%nat
    else l !! j.
Proof.
  intros Hb. unfold np.splice.
  destruct (decide (j < off)%nat) as [Hlt|Hge].
  - rewrite lookup_app_l by (rewrite length_take; lia).
    rewrite lookup_take_lt by lia.
    case_decide; [lia|done].
  - rewrite lookup_app_r by (rewrite length_take; lia).
    rewrite length_take, Nat.min_l by lia.
    destruct (decide (j - off < length v)%nat).
    + rewrite lookup_app_l by lia. case_decide; [done|lia].
    + rewrite lookup_app_r by lia. rewrite lookup_drop.
      case_decide; [lia|]. f_equal. lia.
Qed.

Lemma splice_all v l : length v = length l -> np.splice 0 v l = v.
Proof.
  intros E. unfold np.splice. rewrite take_0, drop_ge by (simpl; lia).
  simpl. apply app_nil_r.
Qed.

Lemma stretch_same n l : length l = n -> np.stretch n l = l.
Proof. intros <-. unfold np.stretch. by rewrite Nat.eqb_refl. Qed.

Lemma length_stretch n l :
  length l = n \/ length l = 1%nat -> length (np.stretch n l) = n.
Proof.
  unfold np.stretch. intros H.
  destruct (Nat.eqb_spec (length l) n) as [|Hne]; [done|].
  destruct H as [|H1]; [done|].
  destruct l as [|x [|y l]]; simplify_eq/=. apply length_replicate.
Qed.
End lists.

Lemma lookup_patch {A B} (f : B -> A -> A) (V : list B) (L : list A) y0 i :
  (y0 + length V <= length L)%nat ->
  (take y0 L ++ zip_with f V (np.sub y0 (length V) L)
     ++ drop (y0 + length V) L) !! i =
    if decide (y0 <= i < y0 + length V)%nat
    then match V !! (i - y0)%nat, L !! i with
         | Some v, Some a => Some (f v a)
         | _, _ => None
         end
    else L !! i.
Proof.
  intros Hb.
  assert (Hz : length (zip_with f V (np.sub y0 (length V) L)) = length V).
  { rewrite length_zip_with, length_sub; lia. }
  destruct (decide (i < y0)%nat).
  - rewrite lookup_app_l by (rewrite length_take; lia).
    rewrite lookup_take_lt by lia. case_decide; [lia|done].
  - rewrite lookup_app_r by (rewrite length_take; lia).
    rewrite length_take, Nat.min_l by lia.
    destruct (decide (i - y0 < length V)%nat).
    + rewrite lookup_app_l by lia. rewrite lookup_zip_with.
      rewrite lookup_sub by lia.
      replace (y0 + (i - y0))%nat with i by lia.
      case_decide; [|lia].
      destruct (V !! (i - y0)%nat); simpl; [|done].
      by destruct (L !! i).
    + rewrite lookup_app_r by lia. rewrite Hz, lookup_drop.
      case_decide; [lia|]. f_equal. lia.
Qed.

Lemma length_patch {A B} (f : B -> A -> A) (V : list B) (L : list A) y0 :
  (y0 + length V <= length L)%nat ->
  length (take y0 L ++ zip_with f V (np.sub y0 (length V) L)
            ++ drop (y0 + length V) L) = length L.
Proof.
  intros. rewrite !length_app, length_take, length_zip_with, length_sub,
    length_drop by lia. lia.
Qed.

(** ** Facts about the numpy fragment *)

Section numpy.
Import np.

Lemma clip_range i n : 0 <= n -> 0 <= clip i n <= n.
Proof. unfold clip. intros. destruct (Z.ltb_spec i 0); lia. Qed.

Lemma clip_id i n : 0 <= i <= n -> clip i n = i.
Proof. unfold clip. intros. destruct (Z.ltb_spec i 0); lia. Qed.

Lemma indices_bound s n off len :
  indices s n = (off, len) -> (off + len <= n)%nat.
Proof.
  unfold indices. intros [= <- <-].
  pose proof (clip_range (start s) (Z.of_nat n)).
  pose proof (clip_range (stop s) (Z.of_nat n)). lia.
Qed.

(** A slice within the axis is taken as it is. *)
Lemma indices_exact s n :
  0 <= start s <= stop s -> stop s <= Z.of_nat n ->
  indices s n = (Z.to_nat (start s), Z.to_nat (stop s - start s)).
Proof. intros. unfold indices. rewrite !clip_id by lia. done. Qed.

Lemma cast_same dt v : cast dt dt v = v.
Proof. unfold cast. by destruct dt. Qed.

Lemma item_lt a i j x :
  wf a -> item a i j = Some x -> (i < nrows a)%nat /\ (j < ncols a)%nat.
Proof.
  unfold item, nrows. intros Hwf H.
  destruct (rows a !! i) as [r|] eqn:Hr; [|done].
  pose proof (lookup_lt_Some _ _ _ Hr).
  pose proof (lookup_lt_Some _ _ _ H).
  pose proof (Forall_lookup_1 _ _ _ _ Hwf Hr) as Hl. simpl in Hl. lia.
Qed.

Lemma item_is_Some a i j :
  wf a -> (i < nrows a)%nat -> (j < ncols a)%nat -> is_Some (item a i j).
Proof.
  unfold item, nrows. intros Hwf Hi Hj.
  destruct (lookup_lt_is_Some_2 _ _ Hi) as [r Hr]. rewrite Hr.
  apply lookup_lt_is_Some_2.
  pose proof (Forall_lookup_1 _ _ _ _ Hwf Hr) as Hl. simpl in Hl. lia.
Qed.

(** Two well-formed arrays with the same header and the same items are
    the same array. *)
Lemma array_ext a b :
  wf a -> wf b ->
  dtype_of a = dtype_of b -> unit_of a = unit_of b ->
  ncols a = ncols b -> nrows a = nrows b ->
  (forall i j, (i < nrows a)%nat -> (j < ncols a)%nat ->
               item a i j = item b i j) ->
  a = b.
Proof.
  destruct a as [da ua ca ra], b as [db ub cb rb]; unfold wf, nrows, item.
  simpl. intros Hwa Hwb -> -> -> Hn Hi. f_equal.
  apply list_eq. intros i.
  destruct (decide (i < length ra)%nat) as [Hlt|Hge].
  - destruct (lookup_lt_is_Some_2 ra i Hlt) as [r Hr].
    destruct (lookup_lt_is_Some_2 rb i ltac:(lia)) as [r' Hr'].
    rewrite Hr, Hr'. f_equal.
    pose proof (Forall_lookup_1 _ _ _ _ Hwa Hr) as L. simpl in L.
    pose proof (Forall_lookup_1 _ _ _ _ Hwb Hr') as L'. simpl in L'.
    apply list_eq. intros j.
    destruct (decide (j < cb)%nat).
    + specialize (Hi i j Hlt ltac:(lia)). by rewrite Hr, Hr' in Hi.
    + rewrite !lookup_ge_None_2 by lia. done.
  - rewrite !lookup_ge_None_2 by lia. done.
Qed.

(** *** [zeros] and [fill] *)

Lemma zeros_ok ny nx dt :
  0 <= ny -> 0 <= nx ->
  zeros ny nx dt =
    Ok (NdArray dt None (Z.to_nat nx)
          (replicate (Z.to_nat ny) (replicate (Z.to_nat nx) 0%Q))).
Proof.
  intros. unfold zeros.
  destruct (Z.ltb_spec ny 0), (Z.ltb_spec nx 0); simpl; try lia. done.
Qed.

Lemma zeros_inv ny nx dt a :
  zeros ny nx dt = Ok a ->
  0 <= ny /\ 0 <= nx /\ wf a /\ shape a = (ny, nx) /\ dtype_of a = dt /\
  unit_of a = None /\
  forall i j, (i < nrows a)%nat -> (j < ncols a)%nat -> item a i j = Some 0%Q.
Proof.
  unfold zeros.
  destruct (Z.ltb_spec ny 0), (Z.ltb_spec nx 0); simpl; try done.
  intros [= <-]. unfold wf, shape, nrows, item. simpl.
  rewrite length_replicate.
  repeat split; try lia; try done.
  - apply Forall_replicate, length_replicate.
  - f_equal; lia.
  - intros i j Hi Hj. rewrite lookup_replicate_2 by done.
    by apply lookup_replicate_2.
Qed.

Lemma fill_inv a x f :
  fill a x = Ok f ->
  fits_dtype (dtype_of a) x = true /\
  f = with_rows a (map2d (fun _ => cast float64 (dtype_of a) x) (rows a)).
Proof. unfold fill. destruct (fits_dtype _ _); [|done]. by intros [= <-]. Qed.

Lemma fill_raises a x e :
  fill a x = Raise e ->
  e = OverflowError /\ fits_dtype (dtype_of a) x = false.
Proof. unfold fill. destruct (fits_dtype _ _); [done|]. by intros [= <-]. Qed.

Lemma fill_header a x f :
  fill a x = Ok f ->
  shape f = shape a /\ dtype_of f = dtype_of a /\ unit_of f = unit_of a.
Proof.
  intros E. apply fill_inv in E as [_ ->].
  unfold with_rows, shape, nrows, map2d. simpl. by rewrite length_fmap.
Qed.

Lemma fill_spec a x :
  wf a -> fits_dtype (dtype_of a) x = true ->
  exists f,
    fill a x = Ok f /\
    wf f /\ nrows f = nrows a /\ ncols f = ncols a /\
    dtype_of f = dtype_of a /\ unit_of f = unit_of a /\
    forall i j, (i < nrows a)%nat -> (j < ncols a)%nat ->
                item f i j = Some (cast float64 (dtype_of a) x).
Proof.
  intros Hwf Hfit. unfold fill. rewrite Hfit. eexists. split; [done|].
  unfold with_rows, wf, nrows, item, map2d. simpl.
  rewrite length_fmap. repeat split; try done.
  - apply Forall_fmap. eapply Forall_impl; [exact Hwf|].
    intros r Hr. simpl. by rewrite length_fmap.
  - intros i j Hi Hj.
    destruct (lookup_lt_is_Some_2 _ _ Hi) as [r Hr].
    rewrite list_lookup_fmap, Hr. simpl.
    pose proof (Forall_lookup_1 _ _ _ _ Hwf Hr) as L. simpl in L.
    destruct (lookup_lt_is_Some_2 r j ltac:(lia)) as [y Hy].
    by rewrite list_lookup_fmap, Hy.
Qed.

Lemma fmap_cast_same dt (o : option Q) : cast dt dt <$> o = o.
Proof. destruct o; simpl; [|done]. by rewrite cast_same. Qed.

Lemma map2d_cast_same dt (rs : list (list Q)) : map2d (cast dt dt) rs = rs.
Proof.
  unfold map2d. rewrite <- (list_fmap_id rs) at 2.
  apply list_fmap_ext. intros _ r _. simpl.
  rewrite <- (list_fmap_id r) at 2.
  apply list_fmap_ext. intros _ v _. apply cast_same.
Qed.

Lemma astype_same a : astype a (dtype_of a) = a.
Proof. unfold astype. rewrite map2d_cast_same. by destruct a. Qed.

(** [astype] keeps the shape and the unit and casts every item. *)
Lemma astype_spec a dt :
  wf a ->
  wf (astype a dt) /\ shape (astype a dt) = shape a /\
  dtype_of (astype a dt) = dt /\ unit_of (astype a dt) = unit_of a /\
  forall i j, item (astype a dt) i j = cast (dtype_of a) dt <$> item a i j.
Proof.
  intros Hwf. unfold astype, wf, shape, nrows, item, map2d. simpl.
  rewrite length_fmap. repeat split; try done.
  - apply Forall_fmap. eapply Forall_impl; [exact Hwf|].
    intros r Hr. simpl. by rewrite length_fmap.
  - intros i j. rewrite list_lookup_fmap.
    destruct (rows a !! i) as [r|]; simpl; [|done].
    by rewrite list_lookup_fmap.
Qed.
End numpy.

Section indexing.
Import np.

(** *** [getitem] *)

Lemma getitem_spec a s y0 ly x0 lx :
  wf a ->
  indices (fst s) (nrows a) = (y0, ly) ->
  indices (snd s) (ncols a) = (x0, lx) ->
  let c := getitem a s in
  wf c /\ nrows c = ly /\ ncols c = lx /\
  dtype_of c = dtype_of a /\ unit_of c = unit_of a /\
  forall i j, (i < ly)%nat -> (j < lx)%nat ->
              item c i j = item a (y0 + i) (x0 + j).
Proof.
  intros Hwf Hy Hx. unfold getitem. rewrite Hy, Hx. simpl.
  pose proof (indices_bound _ _ _ _ Hy) as By.
  pose proof (indices_bound _ _ _ _ Hx) as Bx.
  assert (Hrow : forall r, r ∈ sub y0 ly (rows a) -> length r = ncols a).
  { intros r Hr. unfold sub in Hr.
    apply subseteq_take, subseteq_drop in Hr.
    revert r Hr. by apply Forall_forall. }
  unfold wf, nrows, item in *. simpl.
  rewrite length_fmap, length_sub by done.
  repeat split; try done.
  - apply Forall_fmap, Forall_forall. intros r Hr. simpl.
    apply length_sub. rewrite (Hrow r Hr). done.
  - intros i j Hi Hj. rewrite list_lookup_fmap, lookup_sub by done.
    destruct (rows a !! (y0 + i)%nat) as [r|]; simpl; [|done].
    by apply lookup_sub.
Qed.

Lemma getitem_shape a s :
  shape (getitem a s) =
    (Z.of_nat (snd (indices (fst s) (nrows a))),
     Z.of_nat (snd (indices (snd s) (ncols a)))).
Proof.
  unfold getitem.
  destruct (indices (fst s) (nrows a)) as [y0 ly] eqn:Hy.
  destruct (indices (snd s) (ncols a)) as [x0 lx] eqn:Hx.
  pose proof (indices_bound _ _ _ _ Hy).
  unfold shape, nrows. simpl. by rewrite length_fmap, length_sub.
Qed.

Lemma getitem_unit a s : unit_of (getitem a s) = unit_of a.
Proof.
  unfold getitem.
  by destruct (indices (fst s) (nrows a)), (indices (snd s) (ncols a)).
Qed.

Lemma getitem_dtype a s : dtype_of (getitem a s) = dtype_of a.
Proof.
  unfold getitem.
  by destruct (indices (fst s) (nrows a)), (indices (snd s) (ncols a)).
Qed.

(** *** [setitem] *)

Lemma length_broadcast_rows v h w :
  broadcastable (nrows v) (ncols v) h w = true ->
  length (broadcast_rows v h w) = h.
Proof.
  unfold broadcastable, broadcast_rows, nrows. intros Hb.
  rewrite length_fmap. apply length_stretch.
  apply andb_prop in Hb as [Hb _]. apply orb_prop in Hb.
  destruct Hb as [Hb|Hb]; apply Nat.eqb_eq in Hb; auto.
Qed.

(** Assignment keeps the header and the number of rows of the target,
    whatever is broadcast into it. *)
Lemma setitem_header a s v a' :
  setitem a s v = Ok a' ->
  nrows a' = nrows a /\ ncols a' = ncols a /\
  dtype_of a' = dtype_of a /\ unit_of a' = unit_of a.
Proof.
  unfold setitem.
  destruct (indices (fst s) (nrows a)) as [y0 ly] eqn:Hy.
  destruct (indices (snd s) (ncols a)) as [x0 lx] eqn:Hx.
  destruct (broadcastable _ _ _ _) eqn:Hb; [|done].
  intros [= <-]. unfold with_rows, nrows. simpl. repeat split.
  pose proof (indices_bound _ _ _ _ Hy) as By. unfold nrows in By.
  pose proof (length_broadcast_rows _ _ _ Hb) as Lb.
  set (V := map2d _ _).
  assert (LV : length V = ly)
    by (unfold V, map2d; by rewrite length_fmap).
  rewrite <- LV. apply length_patch. lia.
Qed.

Lemma setitem_shape a s v a' : setitem a s v = Ok a' -> shape a' = shape a.
Proof.
  intros H. apply setitem_header in H as (Hn & Hc & _).
  unfold shape. by rewrite Hn, Hc.
Qed.

(** Assignment of a value that has exactly the shape of the selected
    block: it succeeds, and the result is the target with the block
    replaced by the value cast to the target's dtype. *)
Lemma setitem_exact a s v y0 ly x0 lx :
  wf a -> wf v ->
  indices (fst s) (nrows a) = (y0, ly) ->
  indices (snd s) (ncols a) = (x0, lx) ->
  nrows v = ly -> ncols v = lx ->
  exists a',
    setitem a s v = Ok a' /\ wf a' /\
    forall i j, (i < nrows a)%nat -> (j < ncols a)%nat ->
      item a' i j =
        if decide ((y0 <= i < y0 + ly)%nat /\ (x0 <= j < x0 + lx)%nat)
        then cast (dtype_of v) (dtype_of a) <$> item v (i - y0) (j - x0)
        else item a i j.
Proof.
  intros Hwa Hwv Hy Hx Hnv Hcv. unfold setitem. rewrite Hy, Hx.
  assert (Hb : broadcastable (nrows v) (ncols v) ly lx = true).
  { unfold broadcastable. rewrite Hnv, Hcv, !Nat.eqb_refl. done. }
  rewrite Hb. eexists. split; [done|].
  pose proof (indices_bound _ _ _ _ Hy) as By.
  pose proof (indices_bound _ _ _ _ Hx) as Bx.
  assert (HV : broadcast_rows v ly lx = rows v).
  { unfold broadcast_rows. rewrite stretch_same by done.
    rewrite <- (list_fmap_id (rows v)) at 2.
    apply Forall_fmap_ext_1. eapply Forall_impl; [exact Hwv|].
    intros r Hr. simpl in *. apply stretch_same. lia. }
  rewrite HV. clear HV Hb.
  set (V := map2d (cast (dtype_of v) (dtype_of a)) (rows v)).
  assert (LV : length V = ly)
    by (unfold V, map2d; by rewrite length_fmap).
  assert (HVi : forall i, V !! i =
                (fmap (cast (dtype_of v) (dtype_of a))) <$> rows v !! i).
  { intros i. unfold V, map2d. by rewrite list_lookup_fmap. }
  unfold nrows in *. rewrite <- LV in *.
  assert (Hrows : forall i,
    (take y0 (rows a) ++ zip_with (splice x0) V (sub y0 (length V) (rows a))
       ++ drop (y0 + length V) (rows a)) !! i =
    if decide (y0 <= i < y0 + length V)%nat
    then match V !! (i - y0)%nat, rows a !! i with
         | Some vr, Some r => Some (splice x0 vr r)
         | _, _ => None
         end
    else rows a !! i) by (intros; by apply lookup_patch).
  split.
  - unfold wf, with_rows. simpl. apply Forall_lookup. intros i r Hr.
    rewrite Hrows in Hr. case_decide.
    + rewrite HVi in Hr.
      destruct (rows v !! (i - y0)%nat) as [vr|] eqn:Hvr; [|done].
      destruct (rows a !! i) as [ar|] eqn:Har; [|done].
      simpl in Hr. injection Hr as <-.
      pose proof (Forall_lookup_1 _ _ _ _ Hwa Har) as La.
      pose proof (Forall_lookup_1 _ _ _ _ Hwv Hvr) as Lv.
      simpl in *. rewrite length_splice; rewrite ?length_fmap; lia.
    + by apply (Forall_lookup_1 _ _ _ _ Hwa Hr).
  - intros i j Hi Hj. unfold item, with_rows. simpl. rewrite Hrows.
    destruct (lookup_lt_is_Some_2 _ _ Hi) as [ar Har]. rewrite Har.
    pose proof (Forall_lookup_1 _ _ _ _ Hwa Har) as La. simpl in La.
    destruct (decide (y0 <= i < y0 + length V)%nat) as [Hin|Hout].
    + assert (Hlt : (i - y0 < length (rows v))%nat) by lia.
      destruct (lookup_lt_is_Some_2 _ _ Hlt) as [vr Hvr].
      rewrite HVi, Hvr. simpl.
      pose proof (Forall_lookup_1 _ _ _ _ Hwv Hvr) as Lv. simpl in Lv.
      rewrite lookup_splice by (rewrite length_fmap; lia).
      rewrite length_fmap, Lv, Hcv.
      destruct (decide (x0 <= j < x0 + lx)%nat).
      * rewrite decide_True by done. by rewrite list_lookup_fmap.
      * rewrite decide_False by tauto. done.
    + rewrite decide_False by tauto. done.
Qed.

(** Slicing a whole well-formed array gives the array back. *)
Lemma getitem_all a :
  wf a ->
  getitem a (Slice 0 (Z.of_nat (nrows a)), Slice 0 (Z.of_nat (ncols a))) = a.
Proof.
  intros Hwf.
  assert (Hy : indices (Slice 0 (Z.of_nat (nrows a))) (nrows a)
               = (0%nat, nrows a)).
  { rewrite indices_exact by (simpl; lia). simpl. f_equal; lia. }
  assert (Hx : indices (Slice 0 (Z.of_nat (ncols a))) (ncols a)
               = (0%nat, ncols a)).
  { rewrite indices_exact by (simpl; lia). simpl. f_equal; lia. }
  destruct (getitem_spec a (Slice 0 (Z.of_nat (nrows a)),
                            Slice 0 (Z.of_nat (ncols a))) _ _ _ _ Hwf Hy Hx)
    as (W & N & C & D & U & I).
  apply array_ext; try done.
  intros i j Hi Hj. rewrite N in Hi. rewrite C in Hj.
  by rewrite I.
Qed.
End indexing.

(** ** [Mask.__init__] *)

Lemma Mask_init_ok d b m :
  np.wf d -> Mask_init d b = Ok m -> Mask_ok m /\ data m = d /\ bbox m = b.
Proof.
  unfold Mask_init, Mask_ok, Mask_shape, np.shape_eqb. intros Hwf.
  destruct (np.shape d) as [sy sx] eqn:Hs. unfold bbox_shape. simpl.
  destruct (Z.eqb_spec sy (iymax b - iymin b)),
           (Z.eqb_spec sx (ixmax b - ixmin b)); simpl; try done.
  intros [= <-]. simpl. rewrite Hs. repeat split; try done. congruence.
Qed.

(** ** The overlap-slice computation *)

Section overlap_slices.
Variable m : Mask.
Variables H W : Z.

Lemma overlap_slices_None :
  _overlap_slices m [H; W] = Ok None <-> no_overlap (bbox m) H W.
Proof.
  unfold _overlap_slices, no_overlap.
  destruct (Z.geb_spec (ixmin (bbox m)) W),
           (Z.geb_spec (iymin (bbox m)) H),
           (Z.leb_spec (ixmax (bbox m)) 0),
           (Z.leb_spec (iymax (bbox m)) 0); simpl;
    split; try done; try (intros; lia); intros; auto with lia.
Qed.

Lemma overlap_slices_Some :
  ~ no_overlap (bbox m) H W ->
  _overlap_slices m [H; W] =
    Ok (Some (large_slices (bbox m) H W, small_slices (bbox m) H W)).
Proof.
  unfold _overlap_slices, no_overlap. intros Hno.
  destruct (Z.geb_spec (ixmin (bbox m)) W),
           (Z.geb_spec (iymin (bbox m)) H),
           (Z.leb_spec (ixmax (bbox m)) 0),
           (Z.leb_spec (iymax (bbox m)) 0); simpl; try done;
    exfalso; apply Hno; lia.
Qed.

Lemma overlap_slices_inv sl ss :
  _overlap_slices m [H; W] = Ok (Some (sl, ss)) ->
  ~ no_overlap (bbox m) H W /\
  sl = large_slices (bbox m) H W /\ ss = small_slices (bbox m) H W.
Proof.
  intros E.
  assert (Hno : ~ no_overlap (bbox m) H W).
  { intros Hn. apply overlap_slices_None in Hn. congruence. }
  rewrite (overlap_slices_Some Hno) in E. by injection E as <- <-.
Qed.
End overlap_slices.

Lemma in_bounds_indices s n :
  np.in_bounds s (Z.of_nat n) ->
  np.indices s n = (Z.to_nat (np.start s), Z.to_nat (np.stop s - np.start s)).
Proof. intros (? & ? & ?). apply indices_exact; lia. Qed.

(** ** Properties of the overlap-slice computation *)

(** C2 (as stated): for the bounding box [ixmin=-2, ixmax=3, iymin=-2,
    iymax=3] and the target shape [(4, 4)] the computation does not return
    the local ranges [(slice(2,4), slice(2,4))] with the target ranges
    [(slice(0,3), slice(0,3))]. *)
Lemma local_range_is_not_2_4 :
  _overlap_slices m55 [4; 4] <>
    Ok (Some ((np.Slice 0 3, np.Slice 0 3), (np.Slice 2 4, np.Slice 2 4))).
Proof. vm_compute. discriminate. Qed.

(** C2 (amended): for every mask with the bounding box [ixmin=-2, ixmax=3,
    iymin=-2, iymax=3] and the target shape [(4, 4)], the local ranges are
    [(slice(2,5), slice(2,5))] and the target ranges
    [(slice(0,3), slice(0,3))]. *)
Theorem overlap_slices_example (d : np.ndarray) :
  _overlap_slices {| data := d; bbox := box (-2) 3 (-2) 3 |} [4; 4] =
    Ok (Some ((np.Slice 0 3, np.Slice 0 3), (np.Slice 2 5, np.Slice 2 5))).
Proof. reflexivity. Qed.

(** C3: for a bounding box with [ixmax > ixmin], [iymax > iymin] and a
    target shape [(H, W)] with positive extents, the computation returns
    the no-overlap sentinel exactly when [ixmin >= W] or [iymin >= H] or
    [ixmax <= 0] or [iymax <= 0], and a pair of slice tuples otherwise.  A
    box with [ixmax = 0] is no-overlap.  For a box with [ixmax = 1] the x
    axis never causes the sentinel, and whenever slices are returned those of
    the x axis are one wide: [slice(0, 1)] in the target and
    [slice(-ixmin, 1 - ixmin)] in the mask. *)
Theorem overlap_slices_sentinel (m : Mask) (H W : Z) :
  bbox_ok (bbox m) -> 0 < H -> 0 < W ->
  (_overlap_slices m [H; W] = Ok None <-> no_overlap (bbox m) H W) /\
  (~ no_overlap (bbox m) H W ->
     exists sl ss, _overlap_slices m [H; W] = Ok (Some (sl, ss))) /\
  (ixmax (bbox m) = 0 -> _overlap_slices m [H; W] = Ok None) /\
  (ixmax (bbox m) = 1 ->
     (_overlap_slices m [H; W] = Ok None <->
        iymin (bbox m) >= H \/ iymax (bbox m) <= 0) /\
     forall sl ss, _overlap_slices m [H; W] = Ok (Some (sl, ss)) ->
       snd sl = np.Slice 0 1 /\
       snd ss = np.Slice (- ixmin (bbox m)) (1 - ixmin (bbox m)) /\
       np.slice_len (snd sl) = 1 /\ np.slice_len (snd ss) = 1).
Proof.
  intros [Hx Hy] HH HW. split; [apply overlap_slices_None|].
  split; [intros Hno; rewrite (overlap_slices_Some m H W Hno); eauto|].
  split.
  - intros E. apply overlap_slices_None. unfold no_overlap. lia.
  - intros E. split.
    + rewrite overlap_slices_None. unfold no_overlap. lia.
    + intros sl ss Hs. apply overlap_slices_inv in Hs as (_ & -> & ->).
      unfold np.slice_len. simpl. rewrite E.
      replace (Z.max (ixmin (bbox m)) 0) with 0 by lia.
      replace (Z.min 1 W) with 1 by lia.
      replace (Z.max (- ixmin (bbox m)) 0) with (- ixmin (bbox m)) by lia.
      replace (Z.min (1 - ixmin (bbox m)) (W - ixmin (bbox m)))
        with (1 - ixmin (bbox m)) by lia.
      repeat split; lia.
Qed.

Lemma overlap_slices_sentinel_witness :
  bbox_ok (bbox m11) /\ 0 < 4 /\ 0 < 4 /\
  ((_overlap_slices m11 [4; 4] = Ok None <-> no_overlap (bbox m11) 4 4) /\
   (~ no_overlap (bbox m11) 4 4 ->
      exists sl ss, _overlap_slices m11 [4; 4] = Ok (Some (sl, ss))) /\
   (ixmax (bbox m11) = 0 -> _overlap_slices m11 [4; 4] = Ok None) /\
   (ixmax (bbox m11) = 1 ->
      (_overlap_slices m11 [4; 4] = Ok None <->
         iymin (bbox m11) >= 4 \/ iymax (bbox m11) <= 0) /\
      forall sl ss, _overlap_slices m11 [4; 4] = Ok (Some (sl, ss)) ->
        snd sl = np.Slice 0 1 /\
        snd ss = np.Slice (- ixmin (bbox m11)) (1 - ixmin (bbox m11)) /\
        np.slice_len (snd sl) = 1 /\ np.slice_len (snd ss) = 1)).
Proof.
  assert (Hb : bbox_ok (bbox m11)) by (unfold bbox_ok; simpl; lia).
  assert (H4 : 0 < 4) by lia.
  split; [exact Hb|]. split; [exact H4|]. split; [exact H4|].
  exact (overlap_slices_sentinel m11 4 4 Hb H4 H4).
Defined.

(** C4: whenever the computation reports an overlap, on each axis the
    local-frame range and the target-frame range have the same length. *)
Theorem overlap_slices_same_length (m : Mask) (shape : list Z) sl ss :
  _overlap_slices m shape = Ok (Some (sl, ss)) ->
  np.slice_len (fst ss) = np.slice_len (fst sl) /\
  np.slice_len (snd ss) = np.slice_len (snd sl) /\
  np.stop (fst ss) - np.start (fst ss) = np.stop (fst sl) - np.start (fst sl) /\
  np.stop (snd ss) - np.start (snd ss) = np.stop (snd sl) - np.start (snd sl).
Proof.
  destruct shape as [|H [|W [|? ?]]]; try done.
  intros Hs. apply overlap_slices_inv in Hs as (_ & -> & ->).
  unfold np.slice_len. simpl. lia.
Qed.

Lemma overlap_slices_same_length_witness :
  _overlap_slices m55 [4; 4] =
    Ok (Some ((np.Slice 0 3, np.Slice 0 3), (np.Slice 2 5, np.Slice 2 5))) /\
  np.slice_len (np.Slice 2 5) = np.slice_len (np.Slice 0 3).
Proof.
  assert (E : _overlap_slices m55 [4; 4] =
    Ok (Some ((np.Slice 0 3, np.Slice 0 3), (np.Slice 2 5, np.Slice 2 5))))
    by reflexivity.
  split; [exact E|].
  exact (proj1 (overlap_slices_same_length m55 [4; 4] _ _ E)).
Defined.

(** C9: for a bounding box with [ixmax > ixmin], [iymax > iymin], on a
    mask whose array has the bounding box's shape, and a target shape with
    positive extents, whenever an overlap is reported all four ranges are
    nonempty and in bounds: the target-frame ranges within [[0,H) x [0,W)],
    the local-frame ranges within the mask array's extents; numpy then
    takes each range as it is, without clamping or wrapping. *)
Theorem overlap_slices_in_bounds (m : Mask) (H W : Z) sl ss :
  Mask_shape m = bbox_shape (bbox m) ->
  bbox_ok (bbox m) -> 0 < H -> 0 < W ->
  _overlap_slices m [H; W] = Ok (Some (sl, ss)) ->
  (np.in_bounds (fst sl) H /\ np.in_bounds (snd sl) W /\
   np.in_bounds (fst ss) (fst (Mask_shape m)) /\
   np.in_bounds (snd ss) (snd (Mask_shape m))) /\
  (np.indices (fst sl) (Z.to_nat H) =
     (Z.to_nat (np.start (fst sl)),
      Z.to_nat (np.stop (fst sl) - np.start (fst sl))) /\
   np.indices (snd sl) (Z.to_nat W) =
     (Z.to_nat (np.start (snd sl)),
      Z.to_nat (np.stop (snd sl) - np.start (snd sl))) /\
   np.indices (fst ss) (np.nrows (data m)) =
     (Z.to_nat (np.start (fst ss)),
      Z.to_nat (np.stop (fst ss) - np.start (fst ss))) /\
   np.indices (snd ss) (np.ncols (data m)) =
     (Z.to_nat (np.start (snd ss)),
      Z.to_nat (np.stop (snd ss) - np.start (snd ss)))).
Proof.
  intros Hshape [Hx Hy] HH HW Hs.
  apply overlap_slices_inv in Hs as (Hno & -> & ->).
  unfold no_overlap in Hno.
  assert (B : np.in_bounds (np.Slice (Z.max (iymin (bbox m)) 0)
                              (Z.min (iymax (bbox m)) H)) H /\
              np.in_bounds (np.Slice (Z.max (ixmin (bbox m)) 0)
                              (Z.min (ixmax (bbox m)) W)) W /\
              np.in_bounds
                (np.Slice (Z.max (- iymin (bbox m)) 0)
                   (Z.min (iymax (bbox m) - iymin (bbox m))
                      (H - iymin (bbox m)))) (fst (Mask_shape m)) /\
              np.in_bounds
                (np.Slice (Z.max (- ixmin (bbox m)) 0)
                   (Z.min (ixmax (bbox m) - ixmin (bbox m))
                      (W - ixmin (bbox m)))) (snd (Mask_shape m))).
  { rewrite Hshape. unfold np.in_bounds, bbox_shape. simpl. lia. }
  split; [exact B|]. destruct B as (B1 & B2 & B3 & B4). simpl.
  repeat split; apply in_bounds_indices; simpl.
  - by rewrite Z2Nat.id by lia.
  - by rewrite Z2Nat.id by lia.
  - exact B3.
  - exact B4.
Qed.

Lemma overlap_slices_in_bounds_witness :
  np.in_bounds (np.Slice 0 3) 4 /\ np.in_bounds (np.Slice 2 5) 5.
Proof.
  assert (Hs : Mask_shape m55 = bbox_shape (bbox m55)) by reflexivity.
  assert (Hb : bbox_ok (bbox m55)) by (unfold bbox_ok; simpl; lia).
  assert (H4 : 0 < 4) by lia.
  assert (E : _overlap_slices m55 [4; 4] =
    Ok (Some ((np.Slice 0 3, np.Slice 0 3), (np.Slice 2 5, np.Slice 2 5))))
    by reflexivity.
  pose proof (overlap_slices_in_bounds m55 4 4 _ _ Hs Hb H4 H4 E) as P.
  split.
  - exact (proj1 (proj1 P)).
  - exact (proj1 (proj2 (proj2 (proj1 P)))).
Defined.

(** ** One axis of a bounding box against an axis of length [n] *)

Lemma large_indices lo hi n :
  lo < hi -> lo < Z.of_nat n -> 0 < hi ->
  np.indices (np.Slice (Z.max lo 0) (Z.min hi (Z.of_nat n))) n =
    (Z.to_nat (Z.max lo 0), Z.to_nat (Z.min hi (Z.of_nat n) - Z.max lo 0)).
Proof. intros. apply indices_exact; simpl; lia. Qed.

Lemma small_indices lo hi n k :
  lo < hi -> lo < Z.of_nat n -> 0 < hi ->
  Z.of_nat k = hi - lo ->
  np.indices (np.Slice (Z.max (- lo) 0)
                (Z.min (hi - lo) (Z.of_nat n - lo))) k =
    (Z.to_nat (Z.max (- lo) 0), Z.to_nat (Z.min hi (Z.of_nat n) - Z.max lo 0)).
Proof.
  intros ? ? ? Hk. rewrite indices_exact by (simpl; lia). simpl. f_equal. lia.
Qed.

Lemma own_indices_inside lo hi n :
  0 <= lo -> lo <= hi -> hi <= Z.of_nat n ->
  np.indices (np.Slice lo hi) n = (Z.to_nat lo, Z.to_nat (hi - lo)).
Proof. intros. apply indices_exact; simpl; lia. Qed.

(** With an overlap, the box's own slice selects as many indices as the
    box is long only if the box lies within the axis. *)
Lemma own_indices_fit lo hi n :
  lo < hi -> lo < Z.of_nat n -> 0 < hi ->
  Z.of_nat (snd (np.indices (np.Slice lo hi) n)) = hi - lo ->
  0 <= lo /\ hi <= Z.of_nat n.
Proof.
  unfold np.indices, np.clip. simpl. intros ? ? ?.
  destruct (Z.ltb_spec lo 0), (Z.ltb_spec hi 0); lia.
Qed.

Lemma Mask_ok_dims m :
  Mask_ok m ->
  Z.of_nat (np.nrows (data m)) = iymax (bbox m) - iymin (bbox m) /\
  Z.of_nat (np.ncols (data m)) = ixmax (bbox m) - ixmin (bbox m).
Proof. intros [_ E]. by injection E. Qed.

Lemma zeros_dims H W dt z :
  np.zeros H W dt = Ok z ->
  np.wf z /\ Z.of_nat (np.nrows z) = H /\ Z.of_nat (np.ncols z) = W.
Proof.
  intros Hz. apply zeros_inv in Hz as (_ & _ & Wz & S & _).
  split; [done|]. split; [exact (f_equal fst S)|exact (f_equal snd S)].
Qed.

Lemma shape_eqb_eq s t : np.shape_eqb s t = true <-> s = t.
Proof.
  unfold np.shape_eqb. destruct s, t. simpl.
  rewrite andb_true_iff, !Z.eqb_eq. split; [intros []|intros [=]]; by subst.
Qed.

(** ** [cutout] on an overlapping mask *)



Section cutout_overlap.
Variable m : Mask.
Variable d : np.ndarray.
Variable fill_value : Q.
Hypothesis Hm : Mask_ok m.
Hypothesis Hb : bbox_ok (bbox m).
Hypothesis Hd : np.wf d.
Hypothesis Hov : ~ no_overlap (bbox m) (fst (np.shape d)) (snd (np.shape d)).

Lemma cutout_fast_overlap :
  np.shape (cutout_fast m d) = Mask_shape m ->
  inside (bbox m) (fst (np.shape d)) (snd (np.shape d)) /\
  is_cutout m d fill_value (cutout_fast m d) /\
  np.dtype_of (cutout_fast m d) = np.dtype_of d.
Proof.
  intros E. destruct (Mask_ok_dims m Hm) as [Hrows Hcols].
  unfold cutout_fast in *. rewrite getitem_shape in E.
  destruct Hm as [_ Es]. rewrite Es in E. injection E as Ey Ex.
  destruct Hb as [Bx By]. unfold no_overlap in Hov. simpl in *.
  apply own_indices_fit in Ey; [|lia..].
  apply own_indices_fit in Ex; [|lia..].
  destruct Ey, Ex.
  split; [unfold inside; simpl; lia|].
  pose proof (own_indices_inside (iymin (bbox m)) (iymax (bbox m))
                (np.nrows d) ltac:(lia) ltac:(lia) ltac:(lia)) as Iy.
  pose proof (own_indices_inside (ixmin (bbox m)) (ixmax (bbox m))
                (np.ncols d) ltac:(lia) ltac:(lia) ltac:(lia)) as Ix.
  destruct (getitem_spec d (bbox_slices (bbox m)) _ _ _ _ Hd Iy Ix)
    as (Wc & Nc & Cc & Dc & Uc & Ic).
  split; [|done].
  unfold is_cutout. repeat split; try done.
  - rewrite Es. unfold np.shape, bbox_shape. rewrite Nc, Cc. f_equal; lia.
  - intros i j Hi Hj. rewrite Ic by lia. rewrite Dc, fmap_cast_same.
    rewrite decide_True by (unfold in_extent; simpl; lia).
    f_equal; lia.
Qed.

Lemma cutout_fast_shape_inside :
  inside (bbox m) (fst (np.shape d)) (snd (np.shape d)) ->
  np.shape (cutout_fast m d) = Mask_shape m.
Proof.
  intros Hin. unfold cutout_fast. rewrite getitem_shape.
  destruct Hm as [_ ->].
  unfold inside in Hin. cbn [fst snd np.shape] in Hin.
  destruct Hin as (? & ? & ? & ?), Hb.
  unfold bbox_shape, bbox_slices. cbn [fst snd].
  rewrite !own_indices_inside by lia. cbn [fst snd]. f_equal; lia.
Qed.

(** The fallback when the fill value cannot be stored. *)
Lemma cutout_fallback_overflow :
  np.fits_dtype (np.dtype_of d) fill_value = false ->
  cutout_fallback m d fill_value = Raise OverflowError.
Proof.
  intros Hfit. unfold cutout_fallback.
  rewrite (overlap_slices_Some _ _ _ Hov). cbn [bind].
  unfold Mask_shape, np.shape. cbn [fst snd].
  rewrite zeros_ok by lia. cbn [bind].
  unfold np.fill. cbn [np.dtype_of]. by rewrite Hfit.
Qed.

Lemma cutout_fallback_overlap :
  np.fits_dtype (np.dtype_of d) fill_value = true ->
  exists a, cutout_fallback m d fill_value = Ok (PyArr a) /\
            is_cutout m d fill_value a /\
            np.dtype_of a = fallback_dtype d.
Proof.
  intros Hfit.
  destruct (Mask_ok_dims m Hm) as [Hrows Hcols].
  unfold cutout_fallback. rewrite (overlap_slices_Some _ _ _ Hov). simpl.
  destruct Hm as [Wm Es]. destruct Hb as [Bx By].
  unfold no_overlap in Hov. simpl in Hov.
  rewrite zeros_ok by lia. simpl.
  set (z := np.NdArray _ _ _ _).
  destruct (zeros_inv (Z.of_nat (np.nrows (data m)))
              (Z.of_nat (np.ncols (data m))) (np.dtype_of d) z)
    as (_ & _ & Wz & Sz & Dz & Uz & Iz).
  { by rewrite zeros_ok by lia. }
  assert (Nz : np.nrows z = np.nrows (data m))
    by (apply Nat2Z.inj; exact (f_equal fst Sz)).
  assert (Cz : np.ncols z = np.ncols (data m))
    by (apply Nat2Z.inj; exact (f_equal snd Sz)).
  clearbody z.
  destruct (fill_spec z fill_value Wz ltac:(by rewrite Dz))
    as (f & Ef & Wf & Nf & Cf & Df & Uf & If).
  rewrite Ef. cbn [bind].
  pose proof (large_indices (iymin (bbox m)) (iymax (bbox m)) (np.nrows d)
                ltac:(lia) ltac:(lia) ltac:(lia)) as Ly.
  pose proof (large_indices (ixmin (bbox m)) (ixmax (bbox m)) (np.ncols d)
                ltac:(lia) ltac:(lia) ltac:(lia)) as Lx.
  pose proof (small_indices (iymin (bbox m)) (iymax (bbox m)) (np.nrows d)
                (np.nrows f) ltac:(lia) ltac:(lia) ltac:(lia)
                ltac:(lia)) as Sy.
  pose proof (small_indices (ixmin (bbox m)) (ixmax (bbox m)) (np.ncols d)
                (np.ncols f) ltac:(lia) ltac:(lia) ltac:(lia)
                ltac:(lia)) as Sx.
  set (sl := large_slices (bbox m) _ _) in *.
  set (ss := small_slices (bbox m) _ _) in *.
  destruct (getitem_spec d sl _ _ _ _ Hd Ly Lx)
    as (Wg & Ng & Cg & Dg & Ug & Ig).
  destruct (setitem_exact f ss (np.getitem d sl) _ _ _ _ Wf Wg Sy Sx Ng Cg)
    as (a' & Ea & Wa & Ia).
  rewrite Ea. cbn [bind].
  destruct (setitem_header _ _ _ _ Ea) as (Na & Ca & Da & Ua).
  assert (Da' : np.dtype_of a' = np.dtype_of d) by congruence.
  assert (Sa' : np.shape a' = Mask_shape m).
  { unfold Mask_shape, np.shape. f_equal; f_equal; lia. }
  assert (Hitem : forall i j,
    (i < np.nrows (data m))%nat -> (j < np.ncols (data m))%nat ->
    np.item a' i j =
      if decide (in_extent d (iymin (bbox m) + Z.of_nat i)
                             (ixmin (bbox m) + Z.of_nat j))
      then np.item d (Z.to_nat (iymin (bbox m) + Z.of_nat i))
                     (Z.to_nat (ixmin (bbox m) + Z.of_nat j))
      else Some (np.cast np.float64 (np.dtype_of d) fill_value)).
  { intros i j Hi Hj.
    rewrite Ia by lia. rewrite Dg, Df, Dz.
    destruct (decide (in_extent d _ _)) as [Hin|Hout];
      unfold in_extent in *; simpl in *.
    + rewrite decide_True by lia. rewrite Ig by lia.
      replace (Z.to_nat (iymin (bbox m) `max` 0) +
               (i - Z.to_nat ((- iymin (bbox m)) `max` 0)))%nat
        with (Z.to_nat (iymin (bbox m) + Z.of_nat i)) by lia.
      replace (Z.to_nat (ixmin (bbox m) `max` 0) +
               (j - Z.to_nat ((- ixmin (bbox m)) `max` 0)))%nat
        with (Z.to_nat (ixmin (bbox m) + Z.of_nat j)) by lia.
      apply fmap_cast_same.
    + rewrite decide_False by lia. rewrite If by lia. by rewrite Dz. }
  unfold fallback_dtype. destruct (np.unit_of d) as [u|] eqn:Hu.
  - eexists. split; [done|].
    destruct (astype_spec a' np.float64 Wa) as (Wq & Sq & Dq & Uq & Iq).
    split; [|done]. unfold is_cutout, np.quantity.
    split; [exact Wq|]. split; [by rewrite <- Sa', <- Sq|].
    split; [done|].
    intros i j Hi Hj. change (np.item (np.with_unit ?x _) i j)
      with (np.item x i j).
    rewrite Iq, Hitem by done. cbn [np.dtype_of np.with_unit np.astype].
    rewrite Da'. by destruct (decide _).
  - eexists. split; [done|]. split; [|done].
    unfold is_cutout. split; [exact Wa|]. split; [exact Sa'|].
    split; [congruence|].
    intros i j Hi Hj. rewrite Hitem by done. rewrite Da'.
    rewrite fmap_cast_same, cast_same. done.
Qed.

(** On an overlapping mask [cutout] returns an array, through whichever
    path, and the array is the cutout, as soon as the box lies inside the
    data or the fill value can be stored. *)
Lemma cutout_overlap :
  inside (bbox m) (fst (np.shape d)) (snd (np.shape d)) \/
  np.fits_dtype (np.dtype_of d) fill_value = true ->
  exists a, cutout m d fill_value = Ok (PyArr a) /\
            is_cutout m d fill_value a.
Proof.
  intros Hor. unfold cutout.
  destruct (np.shape_eqb _ _) eqn:E; simpl.
  - eexists. split; [done|]. apply cutout_fast_overlap.
    by apply shape_eqb_eq.
  - destruct Hor as [Hin|Hfit].
    + apply cutout_fast_shape_inside, shape_eqb_eq in Hin. congruence.
    + destruct (cutout_fallback_overlap Hfit) as (a & Ea & Ia & _). eauto.
Qed.
End cutout_overlap.

(** Outside the target, or at its border with nothing inside, a box whose
    maximum is not negative never selects as many indices as it is long. *)
Lemma own_indices_miss lo hi n :
  lo < hi -> 0 <= hi -> lo >= Z.of_nat n \/ hi <= 0 ->
  Z.of_nat (snd (np.indices (np.Slice lo hi) n)) <> hi - lo.
Proof.
  unfold np.indices, np.clip. simpl. intros ? ? ?.
  destruct (Z.ltb_spec lo 0), (Z.ltb_spec hi 0); lia.
Qed.


Lemma quantity_header c u :
  np.shape (np.quantity c u) = np.shape c /\
  np.dtype_of (np.quantity c u) = np.float64 /\
  np.unit_of (np.quantity c u) = Some u.
Proof.
  unfold np.quantity, np.with_unit, np.astype, np.shape, np.nrows, np.map2d.
  simpl. by rewrite length_fmap.
Qed.

(** The steps of the fallback of [cutout] behind a returned value. *)
Lemma cutout_fallback_inv m d fill_value v :
  cutout_fallback m d fill_value = Ok v ->
  (v = PyNone /\
   _overlap_slices m [fst (np.shape d); snd (np.shape d)] = Ok None) \/
  (exists sl ss z f c,
     _overlap_slices m [fst (np.shape d); snd (np.shape d)]
       = Ok (Some (sl, ss)) /\
     np.zeros (fst (Mask_shape m)) (snd (Mask_shape m)) (np.dtype_of d)
       = Ok z /\
     np.fill z fill_value = Ok f /\
     np.setitem f ss (np.getitem d sl) = Ok c /\
     v = PyArr (match np.unit_of d with
                | Some u => np.quantity c u
                | None => c
                end)).
Proof.
  unfold cutout_fallback.
  destruct (_overlap_slices m _) as [[[sl ss]|]|]; cbn [bind]; try done.
  - destruct (np.zeros _ _ _) as [z|] eqn:Ez; cbn [bind]; try done.
    destruct (np.fill z fill_value) as [f|] eqn:Ef; cbn [bind]; try done.
    destruct (np.setitem f ss _) as [c|] eqn:Ec; cbn [bind]; try done.
    intros [= <-]. right. by exists sl, ss, z, f, c.
  - intros [= <-]. by left.
Qed.

(** The header of an array returned by the fallback of [cutout]. *)
Lemma cutout_fallback_header m d fill_value a :
  cutout_fallback m d fill_value = Ok (PyArr a) ->
  np.shape a = Mask_shape m /\ np.unit_of a = np.unit_of d /\
  np.dtype_of a = fallback_dtype d /\
  np.fits_dtype (np.dtype_of d) fill_value = true.
Proof.
  intros E. apply cutout_fallback_inv in E as [[? _]|E]; [done|].
  destruct E as (sl & ss & z & f & c & _ & Ez & Ef & Ec & [= ->]).
  apply setitem_header in Ec as (Nc & Cc & Dc & Uc).
  destruct (fill_header _ _ _ Ef) as (Sf & Df & Uf).
  apply fill_inv in Ef as [Hfit _].
  apply zeros_inv in Ez as (_ & _ & _ & Sz & Dz & Uz & _).
  assert (Sc : np.shape c = Mask_shape m).
  { unfold np.shape at 1. rewrite Nc, Cc. fold (np.shape f).
    rewrite Sf, Sz. symmetry. apply surjective_pairing. }
  assert (Dc' : np.dtype_of c = np.dtype_of d) by congruence.
  assert (Uc' : np.unit_of c = None) by congruence.
  rewrite Dz in Hfit. unfold fallback_dtype.
  destruct (np.unit_of d) as [u|].
  - destruct (quantity_header c u) as (Sq & Dq & Uq).
    repeat split; try done. by rewrite Sq.
  - by repeat split.
Qed.

(** An array returned by [cutout] has the shape of the mask. *)
Lemma cutout_shape m d fill_value a :
  cutout m d fill_value = Ok (PyArr a) -> np.shape a = Mask_shape m.
Proof.
  unfold cutout. destruct (np.shape_eqb _ _) eqn:E; simpl.
  - intros [= <-]. by apply shape_eqb_eq.
  - intros Ea. by apply cutout_fallback_header in Ea as (? & _).
Qed.

(** Without an overlap, [cutout] gives [None] as soon as the direct slice
    has not the shape of the mask. *)
Lemma cutout_no_overlap_None m d fill_value :
  no_overlap (bbox m) (fst (np.shape d)) (snd (np.shape d)) ->
  np.shape (cutout_fast m d) <> Mask_shape m ->
  cutout m d fill_value = Ok PyNone.
Proof.
  intros Hno Hs. unfold cutout.
  destruct (np.shape_eqb _ _) eqn:E; simpl.
  - by apply shape_eqb_eq in E.
  - unfold cutout_fallback.
    apply overlap_slices_None in Hno. by rewrite Hno.
Qed.

Lemma cutout_no_overlap_nonneg m d fill_value :
  Mask_ok m -> bbox_ok (bbox m) ->
  no_overlap (bbox m) (fst (np.shape d)) (snd (np.shape d)) ->
  0 <= ixmax (bbox m) -> 0 <= iymax (bbox m) ->
  cutout m d fill_value = Ok PyNone.
Proof.
  intros [_ Es] [Bx By] Hno Hx Hy. apply cutout_no_overlap_None; [done|].
  unfold cutout_fast. rewrite getitem_shape, Es. unfold bbox_shape.
  unfold no_overlap in Hno. simpl in *. intros [= Ey Ex].
  assert (C : (iymin (bbox m) >= Z.of_nat (np.nrows d) \/ iymax (bbox m) <= 0)
           \/ (ixmin (bbox m) >= Z.of_nat (np.ncols d) \/ ixmax (bbox m) <= 0))
    by lia.
  destruct C as [C|C].
  - by apply (own_indices_miss _ _ _ By Hy C).
  - by apply (own_indices_miss _ _ _ Bx Hx C).
Qed.

(** ** [to_image] on an overlapping mask *)

Section to_image_overlap.
Variable m : Mask.
Variables H W : Z.
Hypothesis Hm : Mask_ok m.
Hypothesis Hb : bbox_ok (bbox m).
Hypothesis HH : 0 <= H.
Hypothesis HW : 0 <= W.

Variable z : np.ndarray.
Hypothesis Hz : np.zeros H W np.float64 = Ok z.

Lemma is_image_header a :
  np.setitem z (bbox_slices (bbox m)) (data m) = Ok a \/
  (exists s v, np.setitem z s v = Ok a) ->
  np.shape a = (H, W) /\ np.dtype_of a = np.float64 /\ np.unit_of a = None.
Proof.
  intros E.
  assert (E' : exists s v, np.setitem z s v = Ok a)
    by (destruct E; eauto).
  destruct E' as (s & v & E').
  pose proof (setitem_shape _ _ _ _ E') as S.
  apply setitem_header in E' as (_ & _ & D & U).
  apply zeros_inv in Hz as (_ & _ & _ & Sz & Dz & Uz & _).
  repeat split; congruence.
Qed.

Lemma to_image_try_inside :
  inside (bbox m) H W -> exists a, to_image_try m z = Ok a /\ is_image m H W a.
Proof.
  intros (I1 & I2 & I3 & I4). destruct Hb as [Bx By].
  destruct (Mask_ok_dims m Hm) as [Hrows Hcols].
  destruct (zeros_dims _ _ _ _ Hz) as (Wz & Nz & Cz).
  destruct Hm as [Wm _].
  unfold to_image_try.
  pose proof (own_indices_inside (iymin (bbox m)) (iymax (bbox m))
                (np.nrows z) ltac:(lia) ltac:(lia) ltac:(lia)) as Iy.
  pose proof (own_indices_inside (ixmin (bbox m)) (ixmax (bbox m))
                (np.ncols z) ltac:(lia) ltac:(lia) ltac:(lia)) as Ix.
  destruct (setitem_exact z (bbox_slices (bbox m)) (data m) _ _ _ _
              Wz Wm Iy Ix ltac:(lia) ltac:(lia)) as (a & Ea & Wa & Ia).
  exists a. split; [done|].
  destruct (is_image_header a) as (S & D & U); [by left|].
  unfold is_image. repeat split; try done.
  intros i j Hi Hj. rewrite Ia by lia.
  apply zeros_inv in Hz as (_ & _ & _ & _ & Dz & _ & Iz). rewrite Dz.
  destruct (decide (in_box _ _ _)) as [Hin|Hout]; unfold in_box in *.
  - rewrite decide_True by lia. do 2 f_equal; lia.
  - rewrite decide_False by lia. apply Iz; lia.
Qed.

Hypothesis Hov : ~ no_overlap (bbox m) H W.

Lemma to_image_try_not_inside :
  ~ inside (bbox m) H W -> to_image_try m z = Raise ValueError.
Proof.
  intros Hni. destruct Hb as [Bx By].
  destruct (Mask_ok_dims m Hm) as [Hrows Hcols].
  destruct (zeros_dims _ _ _ _ Hz) as (Wz & Nz & Cz).
  unfold no_overlap in Hov. unfold inside in Hni.
  unfold to_image_try, np.setitem. cbn [fst snd bbox_slices].
  destruct (np.indices (np.Slice (iymin (bbox m)) (iymax (bbox m)))
              (np.nrows z)) as [y0 ly] eqn:Ey.
  destruct (np.indices (np.Slice (ixmin (bbox m)) (ixmax (bbox m)))
              (np.ncols z)) as [x0 lx] eqn:Ex.
  pose proof (own_indices_fit (iymin (bbox m)) (iymax (bbox m)) (np.nrows z)
                ltac:(lia) ltac:(lia) ltac:(lia)) as Fy.
  pose proof (own_indices_fit (ixmin (bbox m)) (ixmax (bbox m)) (np.ncols z)
                ltac:(lia) ltac:(lia) ltac:(lia)) as Fx.
  rewrite Ey in Fy. rewrite Ex in Fx. simpl in Fy, Fx.
  unfold np.broadcastable.
  destruct (Nat.eqb_spec (np.nrows (data m)) ly),
           (Nat.eqb_spec (np.nrows (data m)) 1),
           (Nat.eqb_spec (np.ncols (data m)) lx),
           (Nat.eqb_spec (np.ncols (data m)) 1); simpl; try done;
    exfalso; lia.
Qed.

Lemma to_image_fallback_overlap :
  exists a, to_image_fallback m H W = Ok (PyArr a) /\ is_image m H W a.
Proof.
  destruct (Mask_ok_dims m Hm) as [Hrows Hcols].
  destruct (zeros_dims _ _ _ _ Hz) as (Wz & Nz & Cz).
  unfold to_image_fallback. rewrite (overlap_slices_Some _ _ _ Hov). simpl.
  rewrite Hz. simpl.
  destruct Hm as [Wm _]. destruct Hb as [Bx By].
  unfold no_overlap in Hov.
  pose proof (large_indices (iymin (bbox m)) (iymax (bbox m)) (np.nrows z)
                ltac:(lia) ltac:(lia) ltac:(lia)) as Ly.
  pose proof (large_indices (ixmin (bbox m)) (ixmax (bbox m)) (np.ncols z)
                ltac:(lia) ltac:(lia) ltac:(lia)) as Lx.
  pose proof (small_indices (iymin (bbox m)) (iymax (bbox m)) (np.nrows z)
                (np.nrows (data m)) ltac:(lia) ltac:(lia) ltac:(lia)
                ltac:(lia)) as Sy.
  pose proof (small_indices (ixmin (bbox m)) (ixmax (bbox m)) (np.ncols z)
                (np.ncols (data m)) ltac:(lia) ltac:(lia) ltac:(lia)
                ltac:(lia)) as Sx.
  rewrite Nz in Ly, Sy. rewrite Cz in Lx, Sx.
  set (sl := large_slices (bbox m) H W) in *.
  set (ss := small_slices (bbox m) H W) in *.
  destruct (getitem_spec (data m) ss _ _ _ _ Wm Sy Sx)
    as (Wg & Ng & Cg & Dg & Ug & Ig).
  destruct (setitem_exact z sl (np.getitem (data m) ss) _ _ _ _
              Wz Wg Ly Lx Ng Cg) as (a & Ea & Wa & Ia).
  rewrite Ea. simpl. exists a. split; [done|].
  destruct (is_image_header a) as (S & D & U); [right; eauto|].
  unfold is_image. repeat split; try done.
  intros i j Hi Hj. rewrite Ia by lia.
  apply zeros_inv in Hz as (_ & _ & _ & _ & Dz & _ & Iz). rewrite Dz, Dg.
  destruct (decide (in_box _ _ _)) as [Hin|Hout]; unfold in_box in *.
  - rewrite decide_True by lia. rewrite Ig by lia. do 2 f_equal; lia.
  - rewrite decide_False by lia. apply Iz; lia.
Qed.
End to_image_overlap.

(** On an overlapping mask [to_image] returns an array, through whichever
    path, and the array is the image of the mask. *)
Lemma to_image_overlap m H W :
  Mask_ok m -> bbox_ok (bbox m) -> 0 <= H -> 0 <= W ->
  ~ no_overlap (bbox m) H W ->
  exists a, to_image m [H; W] = Ok (PyArr a) /\ is_image m H W a.
Proof.
  intros Hm Hb HH HW Hov. unfold to_image.
  rewrite zeros_ok by done. simpl. set (z := np.NdArray _ _ _ _).
  assert (Hz : np.zeros H W np.float64 = Ok z) by by apply zeros_ok.
  clearbody z.
  destruct (decide (inside (bbox m) H W)) as [Hin|Hni].
  - destruct (to_image_try_inside m H W Hm Hb z Hz Hin) as (a & -> & Ha).
    eauto.
  - rewrite (to_image_try_not_inside m H W Hm Hb z Hz Hov Hni).
    eapply to_image_fallback_overlap; eauto.
Qed.

(** ** Uniqueness of images and cutouts *)

Lemma shape_inj a b :
  np.shape a = np.shape b -> np.nrows a = np.nrows b /\ np.ncols a = np.ncols b.
Proof. unfold np.shape. intros [= ? ?]. lia. Qed.

Lemma is_cutout_unique m d fill_value a b :
  is_cutout m d fill_value a -> is_cutout m d fill_value b ->
  np.dtype_of a = np.dtype_of b -> a = b.
Proof.
  intros (Wa & Sa & Ua & Ia) (Wb & Sb & Ub & Ib) D.
  destruct (shape_inj a b) as [N C]; [congruence|].
  destruct (shape_inj a (data m)) as [N' C']; [done|].
  apply array_ext; try congruence.
  intros i j Hi Hj. rewrite Ia, Ib by lia. by rewrite D.
Qed.

Lemma is_cutout_astype m d fill_value a dt :
  is_cutout m d fill_value a -> np.dtype_of a = np.dtype_of d ->
  is_cutout m d fill_value (np.astype a dt).
Proof.
  intros (Wa & Sa & Ua & Ia) D.
  destruct (astype_spec a dt Wa) as (Wq & Sq & Dq & Uq & Iq).
  unfold is_cutout. split; [done|]. split; [congruence|].
  split; [congruence|].
  intros i j Hi Hj. rewrite Iq, Ia by done. rewrite Dq, D.
  destruct (decide _); [|by rewrite cast_same].
  by rewrite fmap_cast_same.
Qed.

Lemma is_image_unique m H W a b :
  is_image m H W a -> is_image m H W b -> a = b.
Proof.
  intros (Wa & Sa & Da & Ua & Ia) (Wb & Sb & Db & Ub & Ib).
  destruct (shape_inj a b) as [N C]; [congruence|].
  assert (Z.of_nat (np.nrows a) = H) by exact (f_equal fst Sa).
  assert (Z.of_nat (np.ncols a) = W) by exact (f_equal snd Sa).
  apply array_ext; try congruence.
  intros i j Hi Hj. rewrite Ia, Ib by lia. done.
Qed.

Lemma inside_overlap b H W : bbox_ok b -> inside b H W -> ~ no_overlap b H W.
Proof. unfold bbox_ok, inside, no_overlap. lia. Qed.

Lemma Mask_ok_sample d b :
  np.wf d -> np.shape d = bbox_shape b -> Mask_ok {| data := d; bbox := b |}.
Proof. by split. Qed.

(** ** The two paths agree *)

(** C5 (as stated): it is not true that for every mask whose box lies
    inside the data the fallback of [cutout] returns the array of the direct
    slice: over an integer [Quantity] the fallback returns a float array. *)
Lemma fallback_differs_from_slice :
  ~ (forall (m : Mask) (d : np.ndarray) (fill_value : Q),
       Mask_ok m -> bbox_ok (bbox m) -> np.wf d ->
       inside (bbox m) (fst (np.shape d)) (snd (np.shape d)) ->
       cutout_fallback m d fill_value = Ok (PyArr (cutout_fast m d))).
Proof.
  intros Hc.
  assert (E : cutout_fallback m_in qi44 0%Q =
              Ok (PyArr (cutout_fast m_in qi44))).
  { apply Hc.
    - apply Mask_ok_sample; [|reflexivity]. repeat constructor.
    - unfold bbox_ok. simpl. lia.
    - repeat constructor.
    - unfold inside, np.shape, np.nrows, np.ncols, qi44, d44, plain.
      simpl. lia. }
  vm_compute in E. discriminate E.
Qed.

(** The fallback of [cutout] also differs from the direct slice, by
    raising, when the fill value cannot be stored in the integer data's
    dtype. *)
Lemma fallback_raises_on_large_fill :
  inside (bbox m_in) (fst (np.shape d44)) (snd (np.shape d44)) /\
  cutout_fallback m_in d44 (10 ^ 19)%Q = Raise OverflowError /\
  cutout m_in d44 (10 ^ 19)%Q = Ok (PyArr (cutout_fast m_in d44)).
Proof.
  split; [|split; reflexivity].
  unfold inside, np.shape, np.nrows, np.ncols, d44, plain. simpl. lia.
Qed.

(** C5 (amended): for a mask whose bounding box lies fully inside the
    target shape, the direct placement and the fallback of [to_image] give
    the same array, which [to_image] returns.  For a mask whose bounding box
    lies fully inside the data's extents, [cutout] returns the direct slice;
    when the fill value can be stored in the data's dtype the fallback
    returns that slice converted to the fallback's dtype, which is the
    identical array unless the data is an integer [Quantity]; when the fill
    value cannot be stored the fallback raises [OverflowError]. *)
Theorem fast_and_fallback_agree (m : Mask) :
  Mask_ok m -> bbox_ok (bbox m) ->
  (forall H W, inside (bbox m) H W ->
     exists z a, np.zeros H W np.float64 = Ok z /\
       to_image_try m z = Ok a /\
       to_image_fallback m H W = Ok (PyArr a) /\
       to_image m [H; W] = Ok (PyArr a)) /\
  (forall d fill_value,
     np.wf d -> inside (bbox m) (fst (np.shape d)) (snd (np.shape d)) ->
     cutout m d fill_value = Ok (PyArr (cutout_fast m d)) /\
     (np.fits_dtype (np.dtype_of d) fill_value = true ->
      cutout_fallback m d fill_value =
        Ok (PyArr (np.astype (cutout_fast m d) (fallback_dtype d))) /\
      (np.unit_of d = None \/ np.dtype_of d = np.float64 ->
       cutout_fallback m d fill_value = Ok (PyArr (cutout_fast m d)))) /\
     (np.fits_dtype (np.dtype_of d) fill_value = false ->
      cutout_fallback m d fill_value = Raise OverflowError)).
Proof.
  intros Hm Hb. split.
  - intros H W Hin.
    pose proof (inside_overlap _ _ _ Hb Hin) as Hov.
    assert (HH : 0 <= H /\ 0 <= W)
      by (unfold inside, bbox_ok in *; lia).
    destruct HH as [HH HW].
    pose proof (zeros_ok H W np.float64 HH HW) as Hz.
    eexists.
    destruct (to_image_try_inside m H W Hm Hb _ Hz Hin) as (a & Ea & Ia).
    destruct (to_image_fallback_overlap m H W Hm Hb _ Hz Hov)
      as (a' & Ea' & Ia').
    rewrite (is_image_unique _ _ _ _ _ Ia' Ia) in Ea'.
    exists a. repeat split; try done.
    unfold to_image. rewrite Hz. simpl. by rewrite Ea.
  - intros d fv Hd Hin.
    pose proof (inside_overlap _ _ _ Hb Hin) as Hov.
    pose proof (cutout_fast_shape_inside m d Hm Hb Hin) as Hs.
    destruct (cutout_fast_overlap m d fv Hm Hb Hd Hov Hs) as (_ & If & Df).
    split; [|split].
    + unfold cutout. apply shape_eqb_eq in Hs. by rewrite Hs.
    + intros Hfit.
      destruct (cutout_fallback_overlap m d fv Hm Hb Hd Hov Hfit)
        as (a & Ea & Ia & Da).
      assert (E : a = np.astype (cutout_fast m d) (fallback_dtype d)).
      { apply (is_cutout_unique m d fv); [done| |done].
        by apply is_cutout_astype. }
      rewrite E in Ea. split; [done|].
      intros Hplain. rewrite Ea. do 2 f_equal.
      replace (fallback_dtype d) with (np.dtype_of (cutout_fast m d));
        [apply astype_same|].
      rewrite Df. unfold fallback_dtype.
      destruct Hplain as [-> | ->]; [done|]. by destruct (np.unit_of d).
    + by apply cutout_fallback_overflow.
Qed.

Lemma fast_and_fallback_agree_witness :
  inside (bbox m_in) 4 4 /\
  cutout_fallback m_in d44 9%Q = Ok (PyArr (cutout_fast m_in d44)).
Proof.
  assert (Hm : Mask_ok m_in).
  { apply Mask_ok_sample; [|reflexivity]. repeat constructor. }
  assert (Hb : bbox_ok (bbox m_in)) by (unfold bbox_ok; simpl; lia).
  assert (Hd : np.wf d44) by repeat constructor.
  assert (Hin : inside (bbox m_in) 4 4) by (unfold inside; simpl; lia).
  split; [exact Hin|].
  exact (proj2 (proj1 (proj2 (proj2 (fast_and_fallback_agree m_in Hm Hb)
                                d44 9%Q Hd Hin)) eq_refl)
           (or_introl eq_refl)).
Defined.

(** ** [cutout] *)

(** C6 (as stated): it is not true that every pixel of a returned cutout
    that lies outside the data's extent holds [fill_value]: over integer
    data the fill value [1/2] is stored as [0]. *)
Lemma cutout_outside_not_fill_value :
  ~ (forall (m : Mask) (d : np.ndarray) (fill_value : Q) (a : np.ndarray)
            (i j : nat),
       Mask_ok m -> bbox_ok (bbox m) -> np.wf d ->
       cutout m d fill_value = Ok (PyArr a) ->
       (i < np.nrows (data m))%nat -> (j < np.ncols (data m))%nat ->
       ~ in_extent d (iymin (bbox m) + Z.of_nat i)
                     (ixmin (bbox m) + Z.of_nat j) ->
       exists x, np.item a i j = Some x /\ (x == fill_value)%Q).
Proof.
  intros Hc.
  destruct (Hc m_part d44 (1 # 2)%Q
              (plain np.int64 2 [[0; 0]; [0; 1]]%Q) 0%nat 0%nat)
    as (x & Hx & Hq).
  - apply Mask_ok_sample; [|reflexivity]. repeat constructor.
  - unfold bbox_ok. simpl. lia.
  - repeat constructor.
  - reflexivity.
  - compute. lia.
  - compute. lia.
  - unfold in_extent, np.shape, np.nrows, np.ncols, d44, plain, m_part, box.
    simpl. lia.
  - injection Hx as <-. discriminate Hq.
Qed.

(** The dtype of a returned cutout, by the path taken. *)
Lemma cutout_dtype m d fill_value a :
  cutout m d fill_value = Ok (PyArr a) ->
  np.dtype_of a =
    if np.shape_eqb (np.shape (cutout_fast m d)) (Mask_shape m)
    then np.dtype_of d else fallback_dtype d.
Proof.
  unfold cutout. destruct (np.shape_eqb _ _); simpl.
  - intros [= <-]. apply getitem_dtype.
  - intros E. by apply cutout_fallback_header in E as (_ & _ & ? & _).
Qed.

Lemma fallback_dtype_float d :
  np.dtype_of d = np.float64 -> fallback_dtype d = np.float64.
Proof. unfold fallback_dtype. by destruct (np.unit_of d). Qed.

(** C6 (amended): a returned cutout has the mask's shape.  On any overlap,
    partial or full, when the box lies inside the data or [fill_value] can
    be stored in the data's dtype, [cutout] raises nothing and returns an
    array that holds the data where the mask's pixel lies within the data's
    extent and, outside it, [fill_value] cast to the data's dtype, both seen
    through the cast from the data's dtype to the array's own.  Over float
    data this is always so, and the pixels outside hold [fill_value]
    itself.  For a mask fully outside the data's extent none of whose axes
    lies wholly at negative indices ([ixmax >= 0] and [iymax >= 0]) the
    result is [None]. *)
Theorem cutout_spec (m : Mask) (d : np.ndarray) (fill_value : Q) :
  Mask_ok m -> bbox_ok (bbox m) -> np.wf d ->
  (forall a, cutout m d fill_value = Ok (PyArr a) ->
             np.shape a = Mask_shape m) /\
  (~ no_overlap (bbox m) (fst (np.shape d)) (snd (np.shape d)) ->
   inside (bbox m) (fst (np.shape d)) (snd (np.shape d)) \/
   np.fits_dtype (np.dtype_of d) fill_value = true ->
   exists a,
     cutout m d fill_value = Ok (PyArr a) /\ np.shape a = Mask_shape m /\
     forall i j, (i < np.nrows (data m))%nat -> (j < np.ncols (data m))%nat ->
       np.item a i j =
         if decide (in_extent d (iymin (bbox m) + Z.of_nat i)
                                (ixmin (bbox m) + Z.of_nat j))
         then np.cast (np.dtype_of d) (np.dtype_of a) <$>
                np.item d (Z.to_nat (iymin (bbox m) + Z.of_nat i))
                          (Z.to_nat (ixmin (bbox m) + Z.of_nat j))
         else Some (np.cast (np.dtype_of d) (np.dtype_of a)
                      (np.cast np.float64 (np.dtype_of d) fill_value))) /\
  (np.dtype_of d = np.float64 ->
   ~ no_overlap (bbox m) (fst (np.shape d)) (snd (np.shape d)) ->
   exists a,
     cutout m d fill_value = Ok (PyArr a) /\
     forall i j, (i < np.nrows (data m))%nat -> (j < np.ncols (data m))%nat ->
       np.item a i j =
         if decide (in_extent d (iymin (bbox m) + Z.of_nat i)
                                (ixmin (bbox m) + Z.of_nat j))
         then np.item d (Z.to_nat (iymin (bbox m) + Z.of_nat i))
                        (Z.to_nat (ixmin (bbox m) + Z.of_nat j))
         else Some fill_value) /\
  (no_overlap (bbox m) (fst (np.shape d)) (snd (np.shape d)) ->
   0 <= ixmax (bbox m) -> 0 <= iymax (bbox m) ->
   cutout m d fill_value = Ok PyNone).
Proof.
  intros Hm Hb Hd. split; [intros a; apply cutout_shape|]. split; [|split].
  - intros Hov Hor.
    destruct (cutout_overlap m d fill_value Hm Hb Hd Hov Hor)
      as (a & Ea & _ & Sa & _ & Ia).
    eauto.
  - intros Df Hov.
    assert (Hfit : np.fits_dtype (np.dtype_of d) fill_value = true)
      by (by rewrite Df).
    destruct (cutout_overlap m d fill_value Hm Hb Hd Hov (or_intror Hfit))
      as (a & Ea & _ & _ & _ & Ia).
    exists a. split; [done|].
    assert (Da : np.dtype_of a = np.float64).
    { rewrite (cutout_dtype _ _ _ _ Ea).
      destruct (np.shape_eqb _ _); [done|by apply fallback_dtype_float]. }
    intros i j Hi Hj. rewrite Ia by done. rewrite Da, Df.
    destruct (decide _); [apply fmap_cast_same|done].
  - intros Hno Hx Hy. by apply cutout_no_overlap_nonneg.
Qed.

Lemma cutout_spec_witness :
  (Mask_ok m_part /\ bbox_ok (bbox m_part) /\ np.wf d44) /\
  (cutout m_part d44 (1 # 2)%Q =
     Ok (PyArr (plain np.int64 2 [[0; 0]; [0; 1]]%Q))
   /\ np.shape (plain np.int64 2 [[0; 0]; [0; 1]]%Q) = Mask_shape m_part).
Proof.
  assert (Hm : Mask_ok m_part).
  { apply Mask_ok_sample; [|reflexivity]. repeat constructor. }
  assert (Hb : bbox_ok (bbox m_part)) by (unfold bbox_ok; simpl; lia).
  assert (Hd : np.wf d44) by repeat constructor.
  assert (E : cutout m_part d44 (1 # 2)%Q =
              Ok (PyArr (plain np.int64 2 [[0; 0]; [0; 1]]%Q)))
    by reflexivity.
  split; [exact (conj Hm (conj Hb Hd))|]. split; [exact E|].
  exact (proj1 (cutout_spec m_part d44 (1 # 2)%Q Hm Hb Hd) _ E).
Defined.

(** The negative-index slip: a mask that lies wholly at negative indices,
    hence outside the data by the four-inequality test, still gets an
    array from [cutout], read from the far side of the data. *)
Lemma cutout_wraps_negative_box :
  no_overlap (bbox m_neg) (fst (np.shape d44)) (snd (np.shape d44)) /\
  cutout m_neg d44 9%Q = Ok (PyArr (plain np.int64 2 [[6; 7]; [10; 11]]%Q)).
Proof. split; [unfold no_overlap; simpl; lia|reflexivity]. Qed.

(** On a partial overlap with integer data, a fill value beyond the
    64-bit range makes [cutout] raise. *)
Lemma cutout_raises_on_large_fill :
  cutout m_part d44 (10 ^ 19)%Q = Raise OverflowError.
Proof. reflexivity. Qed.

(** *** Units *)

Lemma getitem_with_unit d u s :
  np.getitem (np.with_unit d u) s = np.with_unit (np.getitem d s) u.
Proof.
  unfold np.getitem, np.with_unit, np.nrows. simpl.
  by destruct (np.indices s.1 (length (np.rows d))),
              (np.indices s.2 (np.ncols d)).
Qed.

Lemma setitem_with_unit a s v u :
  np.setitem a s (np.with_unit v u) = np.setitem a s v.
Proof. reflexivity. Qed.

Lemma with_unit_id a : np.with_unit a (np.unit_of a) = a.
Proof. by destruct a. Qed.

Lemma cutout_fallback_unit m d fill_value a :
  cutout_fallback m d fill_value = Ok (PyArr a) ->
  np.unit_of a = np.unit_of d /\
  exists a0,
    cutout_fallback m (np.with_unit d None) fill_value = Ok (PyArr a0) /\
    np.unit_of a0 = None /\
    a = np.with_unit (np.astype a0 (np.dtype_of a)) (np.unit_of d).
Proof.
  intros E. pose proof (cutout_fallback_header _ _ _ _ E) as (_ & U & _).
  split; [done|].
  apply cutout_fallback_inv in E as [[? _]|E]; [done|].
  destruct E as (sl & ss & z & f & c & Eo & Ez & Ef & Ec & [= ->]).
  exists c.
  assert (Uc : np.unit_of c = None).
  { apply setitem_header in Ec as (_ & _ & _ & ->).
    apply fill_header in Ef as (_ & _ & ->).
    by apply zeros_inv in Ez as (_ & _ & _ & _ & _ & ? & _). }
  split; [|split; [done|]].
  - unfold cutout_fallback.
    change (np.shape (np.with_unit d None)) with (np.shape d).
    change (np.dtype_of (np.with_unit d None)) with (np.dtype_of d).
    rewrite Eo. cbn [bind]. rewrite Ez. cbn [bind]. rewrite Ef. cbn [bind].
    rewrite getitem_with_unit, setitem_with_unit, Ec. done.
  - destruct (np.unit_of d) as [u|]; [done|].
    rewrite astype_same. by rewrite <- Uc, with_unit_id.
Qed.

(** C8: in every branch of [cutout] that returns an array, the direct
    slice and the fallback, the array carries the unit tag of the data; and
    the values do not depend on the unit: the returned array is what the
    same call returns on the data stripped of its unit, cast to the returned
    array's dtype and tagged with the data's unit, so that [fill_value]
    enters as a bare scalar. *)
Theorem cutout_keeps_unit (m : Mask) (d : np.ndarray) (fill_value : Q) :
  np.unit_of (cutout_fast m d) = np.unit_of d /\
  (forall a, cutout_fallback m d fill_value = Ok (PyArr a) ->
             np.unit_of a = np.unit_of d) /\
  (forall a, cutout m d fill_value = Ok (PyArr a) ->
             np.unit_of a = np.unit_of d /\
             exists a0,
               cutout m (np.with_unit d None) fill_value = Ok (PyArr a0) /\
               np.unit_of a0 = None /\
               a = np.with_unit (np.astype a0 (np.dtype_of a))
                     (np.unit_of d)).
Proof.
  split; [apply getitem_unit|]. split.
  - intros a Ha. by apply cutout_fallback_unit in Ha as [? _].
  - intros a. unfold cutout, cutout_fast. rewrite getitem_with_unit.
    change (np.shape (np.with_unit (np.getitem d (bbox_slices (bbox m))) None))
      with (np.shape (np.getitem d (bbox_slices (bbox m)))).
    destruct (np.shape_eqb _ _); simpl.
    + intros [= <-]. split; [apply getitem_unit|].
      eexists. split; [done|]. split; [done|].
      set (c := np.getitem d (bbox_slices (bbox m))).
      change (np.dtype_of c) with (np.dtype_of (np.with_unit c None)).
      rewrite astype_same.
      rewrite <- (getitem_unit d (bbox_slices (bbox m))). fold c.
      by destruct c.
    + apply cutout_fallback_unit.
Qed.

Lemma cutout_keeps_unit_witness :
  exists a, cutout m_part q44 9%Q = Ok (PyArr a) /\
            np.unit_of a = Some (np.Unit "Jy").
Proof.
  eexists. split; [reflexivity|].
  exact (proj1 (proj2 (proj2 (cutout_keeps_unit m_part q44 9%Q)) _ eq_refl)).
Defined.

(** *** The dtype of the fallback *)

Lemma cast_fraction_zero (q : Q) :
  (0 <= q)%Q -> (q < 1)%Q -> np.cast np.float64 np.int64 q = 0%Q.
Proof.
  unfold Qle, Qlt. simpl. intros H0 H1.
  unfold np.cast, np.trunc, np.to_int. simpl.
  rewrite Z.quot_small; [done|lia].
Qed.

(** C10: the fallback of [cutout] allocates with the dtype of the data
    and stores [fill_value] cast to it, which it can only when the value
    fits that dtype.  The returned array has the dtype of the data, unless
    the data is a [Quantity], whose result is converted to float; its pixels
    outside the data's extent hold the cast fill value, seen through that
    conversion.  The cast to the integer dtype of every fraction in
    [[0, 1)], such as [1/2], is [0]; so over the integer image [d44] the
    mask [m_part], which sticks out at the top left, gets a cutout whose
    outer pixel [(0, 0)] holds [0], not [1/2]. *)
Theorem cutout_fallback_casts_fill :
  (forall (m : Mask) (d : np.ndarray) (fill_value : Q) (a : np.ndarray),
     Mask_ok m -> bbox_ok (bbox m) -> np.wf d ->
     cutout_fallback m d fill_value = Ok (PyArr a) ->
     np.fits_dtype (np.dtype_of d) fill_value = true /\
     np.dtype_of a = fallback_dtype d /\
     (np.unit_of d = None -> np.dtype_of a = np.dtype_of d) /\
     forall i j, (i < np.nrows (data m))%nat -> (j < np.ncols (data m))%nat ->
       ~ in_extent d (iymin (bbox m) + Z.of_nat i)
                     (ixmin (bbox m) + Z.of_nat j) ->
       np.item a i j =
         Some (np.cast (np.dtype_of d) (np.dtype_of a)
                 (np.cast np.float64 (np.dtype_of d) fill_value))) /\
  (forall q : Q, (0 <= q)%Q -> (q < 1)%Q ->
                 np.cast np.float64 np.int64 q = 0%Q) /\
  np.cast np.float64 np.int64 (1 # 2) = 0%Q /\
  (exists a,
     cutout_fallback m_part d44 (1 # 2) = Ok (PyArr a) /\
     np.dtype_of d44 = np.int64 /\ np.dtype_of a = np.int64 /\
     ~ in_extent d44 (iymin (bbox m_part) + 0) (ixmin (bbox m_part) + 0) /\
     np.item a 0 0 = Some 0%Q /\ ~ (0 == 1 # 2)%Q).
Proof.
  split; [|split; [exact cast_fraction_zero|split]].
  - intros m d fv a Hm Hb Hd Ha.
    assert (Hov : ~ no_overlap (bbox m) (fst (np.shape d)) (snd (np.shape d))).
    { intros Hno. apply overlap_slices_None in Hno.
      unfold cutout_fallback in Ha. by rewrite Hno in Ha. }
    destruct (cutout_fallback_header _ _ _ _ Ha) as (_ & _ & Da & Hfit).
    destruct (cutout_fallback_overlap m d fv Hm Hb Hd Hov Hfit)
      as (a' & Ea & (_ & _ & _ & Ia) & _).
    rewrite Ea in Ha. injection Ha as <-.
    split; [done|]. split; [done|]. split.
    + intros U. rewrite Da. unfold fallback_dtype. by rewrite U.
    + intros i j Hi Hj Hout. rewrite Ia by done. by rewrite decide_False.
  - reflexivity.
  - eexists. split; [reflexivity|]. repeat split.
    + unfold in_extent, np.shape, np.nrows, np.ncols, d44, plain, m_part, box.
      simpl. lia.
    + discriminate.
Qed.

Lemma cutout_fallback_casts_fill_witness :
  (Mask_ok m_part /\ bbox_ok (bbox m_part) /\ np.wf d44) /\
  np.dtype_of (plain np.int64 2 [[0; 0]; [0; 1]]%Q) = np.dtype_of d44.
Proof.
  assert (Hm : Mask_ok m_part).
  { apply Mask_ok_sample; [|reflexivity]. repeat constructor. }
  assert (Hb : bbox_ok (bbox m_part)) by (unfold bbox_ok; simpl; lia).
  assert (Hd : np.wf d44) by repeat constructor.
  assert (E : cutout_fallback m_part d44 (1 # 2)%Q =
              Ok (PyArr (plain np.int64 2 [[0; 0]; [0; 1]]%Q)))
    by reflexivity.
  split; [exact (conj Hm (conj Hb Hd))|].
  exact (proj1 (proj2 (proj2 (proj1 cutout_fallback_casts_fill
                  m_part d44 (1 # 2)%Q _ Hm Hb Hd E))) eq_refl).
Defined.

(** ** [multiply] *)

(** Whenever [cutout] gives [None], [multiply] raises [TypeError]. *)
Lemma multiply_None_raises m d fill_value :
  cutout m d fill_value = Ok PyNone ->
  multiply m d fill_value = Raise TypeError.
Proof. unfold multiply. by intros ->. Qed.

Lemma multiply_no_overlap_raises m d fill_value :
  Mask_ok m -> bbox_ok (bbox m) ->
  no_overlap (bbox m) (fst (np.shape d)) (snd (np.shape d)) ->
  0 <= ixmax (bbox m) -> 0 <= iymax (bbox m) ->
  multiply m d fill_value = Raise TypeError.
Proof.
  intros. by apply multiply_None_raises, cutout_no_overlap_nonneg.
Qed.

(** C1 (the code at the failing input): the mask [m_far] lies beyond the
    bottom right corner of the image [d44], the four-inequality test
    reports no overlap and [cutout] returns [None]; [multiply] does not
    return [None] but raises [TypeError]. *)
Theorem multiply_no_overlap_TypeError :
  no_overlap (bbox m_far) (fst (np.shape d44)) (snd (np.shape d44)) /\
  cutout m_far d44 0%Q = Ok PyNone /\
  multiply m_far d44 0%Q = Raise TypeError /\
  multiply m_far d44 0%Q <> Ok PyNone.
Proof.
  split; [unfold no_overlap; simpl; lia|].
  split; [reflexivity|]. split; [reflexivity|discriminate].
Qed.

(** ** [to_image] *)

(** An array returned by [to_image] has the given shape. *)
Lemma to_image_shape m H W a :
  to_image m [H; W] = Ok (PyArr a) -> np.shape a = (H, W).
Proof.
  unfold to_image, to_image_try.
  destruct (np.zeros H W np.float64) as [z|] eqn:Ez; cbn [bind]; try done.
  pose proof Ez as Ez'. apply zeros_inv in Ez' as (_ & _ & _ & Sz & _).
  destruct (np.setitem z _ _) as [c|[]] eqn:Ec.
  - intros [= <-]. apply setitem_shape in Ec. congruence.
  - unfold to_image_fallback.
    destruct (_overlap_slices m [H; W]) as [[[sl ss]|]|]; cbn [bind];
      try done.
    rewrite Ez. cbn [bind].
    destruct (np.setitem z sl _) as [c|] eqn:Ec'; cbn [bind]; try done.
    intros [= <-]. apply setitem_shape in Ec'. congruence.
  - done.
  - done.
Qed.

(** C7 (the code at the failing input): the mask [m_neg] lies wholly at
    negative indices, outside a target of shape [(4, 4)]; its clipped
    bounding box is empty, yet [to_image] returns an array that holds the
    mask's weights at rows and columns 1 and 2, where no pixel of the
    bounding box is. *)
Theorem to_image_wraps_negative_box :
  no_overlap (bbox m_neg) 4 4 /\
  to_image m_neg [4; 4] =
    Ok (PyArr (plain np.float64 4
                 [[0; 0; 0; 0]; [0; 1; 2; 0]; [0; 3; 4; 0]; [0; 0; 0; 0]]%Q)) /\
  ~ in_box (bbox m_neg) 1 1 /\
  (forall a, to_image m_neg [4; 4] = Ok (PyArr a) ->
             np.item a 1 1 = Some 1%Q /\ ~ is_image m_neg 4 4 a).
Proof.
  split; [unfold no_overlap; simpl; lia|].
  split; [reflexivity|].
  assert (Hbox : ~ in_box (bbox m_neg) 1 1)
    by (unfold in_box; simpl; lia).
  split; [exact Hbox|].
  intros a [= <-]. split; [reflexivity|].
  intros (_ & _ & _ & _ & Ia).
  specialize (Ia 1%nat 1%nat ltac:(lia) ltac:(lia)).
  rewrite decide_False in Ia by exact Hbox. discriminate Ia.
Qed.

(** * Further properties of the class *)

(** ** Exceptions of the numpy fragment *)

Lemma zeros_raises ny nx dt e :
  np.zeros ny nx dt = Raise e -> e = ValueError /\ (ny < 0 \/ nx < 0).
Proof.
  unfold np.zeros.
  destruct (Z.ltb_spec ny 0), (Z.ltb_spec nx 0); simpl; try done;
    intros [= <-]; split; auto.
Qed.

Lemma setitem_raises a s v e : np.setitem a s v = Raise e -> e = ValueError.
Proof.
  unfold np.setitem.
  destruct (np.indices s.1 (np.nrows a)), (np.indices s.2 (np.ncols a)).
  destruct (np.broadcastable _ _ _ _); [done|]. by intros [= <-].
Qed.

Lemma multiply_raises a b e : np.multiply a b = Raise e -> e = ValueError.
Proof.
  unfold np.multiply. destruct (_ && _); [done|]. by intros [= <-].
Qed.

(** ** [_overlap_slices]: the shape argument and the geometry of the ranges *)

(** X1: [_overlap_slices] raises exactly when the shape has not two
    elements, and then it is [ValueError]; on a two-element shape it returns
    the sentinel or a pair of slice tuples. *)
Theorem overlap_slices_raises_iff (m : Mask) (shape : list Z) :
  (_overlap_slices m shape = Raise ValueError <-> length shape <> 2%nat) /\
  (forall e, _overlap_slices m shape = Raise e -> e = ValueError) /\
  (length shape = 2%nat ->
   _overlap_slices m shape = Ok None \/
   exists sl ss, _overlap_slices m shape = Ok (Some (sl, ss))).
Proof.
  assert (R : forall l : list Z, length l <> 2%nat ->
            _overlap_slices m l = Raise ValueError).
  { intros [|? [|? [|? ?]]]; simpl; (done || lia). }
  destruct (decide (length shape = 2%nat)) as [L|L].
  2:{ rewrite (R shape L). split; [done|]. split; [by intros e [= <-]|done]. }
  clear R. destruct shape as [|H [|W [|x l]]]; try done. clear L.
  assert (D : _overlap_slices m [H; W] = Ok None \/
              exists sl ss, _overlap_slices m [H; W] = Ok (Some (sl, ss))).
  { destruct (decide (no_overlap (bbox m) H W)) as [Hn|Hn].
    - left. by apply overlap_slices_None.
    - right. rewrite (overlap_slices_Some m H W Hn). eauto. }
  split; [|split].
  - split; [|by intros []].
    intros E. destruct D as [D|(sl & ss & D)]; congruence.
  - intros e E. destruct D as [D|(sl & ss & D)]; congruence.
  - intros _. exact D.
Qed.

Lemma overlap_slices_raises_iff_witness :
  _overlap_slices m55 [4; 4; 4] = Raise ValueError.
Proof.
  apply (proj1 (overlap_slices_raises_iff m55 [4; 4; 4])). simpl. lia.
Defined.

(** X2: whenever slices are returned, on each axis the target-frame range
    is the local-frame range shifted by the box's minimum, so that both
    address the same pixels. *)
Theorem overlap_slices_aligned (m : Mask) (shape : list Z) sl ss :
  _overlap_slices m shape = Ok (Some (sl, ss)) ->
  np.start (fst sl) = np.start (fst ss) + iymin (bbox m) /\
  np.stop (fst sl) = np.stop (fst ss) + iymin (bbox m) /\
  np.start (snd sl) = np.start (snd ss) + ixmin (bbox m) /\
  np.stop (snd sl) = np.stop (snd ss) + ixmin (bbox m).
Proof.
  destruct shape as [|H [|W [|? ?]]]; try done.
  intros Hs. apply overlap_slices_inv in Hs as (_ & -> & ->).
  unfold large_slices, small_slices. simpl. lia.
Qed.

Lemma overlap_slices_aligned_witness :
  np.start (np.Slice 0 3) = np.start (np.Slice 2 5) + iymin (bbox m55).
Proof.
  exact (proj1 (overlap_slices_aligned m55 [4; 4]
                  (np.Slice 0 3, np.Slice 0 3) (np.Slice 2 5, np.Slice 2 5)
                  eq_refl)).
Defined.

(** X3: for a nonempty box that lies inside the target, the target-frame
    ranges are the box's own slices and the local-frame ranges cover the
    whole mask array. *)
Theorem overlap_slices_inside (m : Mask) (H W : Z) :
  bbox_ok (bbox m) -> inside (bbox m) H W ->
  _overlap_slices m [H; W] =
    Ok (Some (bbox_slices (bbox m),
              (np.Slice 0 (iymax (bbox m) - iymin (bbox m)),
               np.Slice 0 (ixmax (bbox m) - ixmin (bbox m))))).
Proof.
  intros Hb Hin.
  rewrite (overlap_slices_Some m H W (inside_overlap _ _ _ Hb Hin)).
  destruct Hb, Hin as (? & ? & ? & ?).
  unfold large_slices, small_slices, bbox_slices.
  repeat f_equal; lia.
Qed.

Lemma overlap_slices_inside_witness :
  _overlap_slices m_in [4; 4] =
    Ok (Some (bbox_slices (bbox m_in), (np.Slice 0 2, np.Slice 0 2))).
Proof.
  apply (overlap_slices_inside m_in 4 4).
  - unfold bbox_ok. simpl. lia.
  - unfold inside. simpl. lia.
Defined.

(** ** [__init__] *)

(** X4: the constructor raises [ValueError] exactly when the shape of the
    data differs from the shape of the box, and otherwise returns the mask
    of that data and box.  A constructed mask has a box that is not
    inverted and, for a rectangular data array, satisfies the invariant the
    other methods rely on. *)
Theorem Mask_init_spec (d : np.ndarray) (b : BoundingBox) :
  (Mask_init d b = Raise ValueError <-> np.shape d <> bbox_shape b) /\
  (np.shape d = bbox_shape b ->
   Mask_init d b = Ok {| data := d; bbox := b |}) /\
  (forall m, Mask_init d b = Ok m ->
     data m = d /\ bbox m = b /\
     iymin b <= iymax b /\ ixmin b <= ixmax b /\ (np.wf d -> Mask_ok m)).
Proof.
  unfold Mask_init.
  destruct (np.shape_eqb (np.shape d) (bbox_shape b)) eqn:E; simpl.
  - apply shape_eqb_eq in E. split; [split; [done|congruence]|].
    split; [done|]. intros m [= <-]. simpl.
    pose proof E as E'. unfold np.shape, bbox_shape in E'.
    injection E' as Ey Ex.
    split; [done|]. split; [done|]. split; [lia|]. split; [lia|].
    intros Hwf. by split.
  - assert (N : np.shape d <> bbox_shape b).
    { intros N. apply shape_eqb_eq in N. congruence. }
    split; [done|]. split; [done|]. done.
Qed.

Lemma Mask_init_spec_witness :
  Mask_init w22 (box 1 3 1 3) = Ok m_in /\
  Mask_init w22 (box 1 4 1 3) = Raise ValueError.
Proof.
  split.
  - exact (proj1 (proj2 (Mask_init_spec w22 (box 1 3 1 3))) eq_refl).
  - apply (proj1 (Mask_init_spec w22 (box 1 4 1 3))). discriminate.
Defined.

(** ** Assignment into an empty block *)

Lemma own_indices_empty lo hi n :
  lo < hi -> 0 <= hi -> lo >= Z.of_nat n \/ hi <= 0 ->
  snd (np.indices (np.Slice lo hi) n) = 0%nat.
Proof.
  unfold np.indices, np.clip. simpl. intros ? ? ?.
  destruct (Z.ltb_spec lo 0), (Z.ltb_spec hi 0); lia.
Qed.

Lemma Forall_stretch {A} (P : A -> Prop) n (l : list A) :
  Forall P l -> Forall P (np.stretch n l).
Proof.
  intros Hl. unfold np.stretch. destruct (length l =? n)%nat; [done|].
  destruct l as [|x [|y l]]; try done.
  apply Forall_replicate. by apply Forall_inv in Hl.
Qed.

Lemma stretch_0 {A} (r : list A) :
  (length r <= 1)%nat -> np.stretch 0 r = [].
Proof.
  intros Hr. unfold np.stretch. destruct r as [|x [|y r]]; simpl in *; try done.
  lia.
Qed.

Lemma splice_nil {A} off (r : list A) : np.splice off [] r = r.
Proof.
  unfold np.splice. simpl. rewrite Nat.add_0_r. apply take_drop.
Qed.

Lemma zip_with_splice_nil {A} off (vb L : list (list A)) :
  Forall (fun r => r = []) vb -> (length L <= length vb)%nat ->
  zip_with (np.splice off) vb L = L.
Proof.
  intros Hv. revert L. induction Hv as [|r vb Hr _ IH]; intros [|x L] HL;
    simpl in *; try done; try lia.
  subst r. rewrite splice_nil. f_equal. apply IH. lia.
Qed.

Lemma take_sub_drop {A} (R : list A) y0 ly :
  take y0 R ++ np.sub y0 ly R ++ drop (y0 + ly) R = R.
Proof.
  unfold np.sub. rewrite <- drop_drop, take_drop. apply take_drop.
Qed.

(** An assignment whose selected block is empty on an axis, when the
    value can be broadcast at all, changes nothing. *)
Lemma setitem_empty a s v a' :
  np.wf v -> np.setitem a s v = Ok a' ->
  snd (np.indices s.1 (np.nrows a)) = 0%nat \/
  snd (np.indices s.2 (np.ncols a)) = 0%nat ->
  a' = a.
Proof.
  intros Wv. unfold np.setitem.
  destruct (np.indices s.1 (np.nrows a)) as [y0 ly] eqn:Ey.
  destruct (np.indices s.2 (np.ncols a)) as [x0 lx] eqn:Ex.
  destruct (np.broadcastable _ _ _ _) eqn:Hb; [|done].
  intros [= <-] Hz. simpl in Hz.
  pose proof (indices_bound _ _ _ _ Ey) as By. unfold np.nrows in By.
  pose proof (length_broadcast_rows _ _ _ Hb) as Lb.
  set (vb := np.map2d _ _).
  assert (Lvb : length vb = ly)
    by (unfold vb, np.map2d; by rewrite length_fmap).
  assert (E : zip_with (np.splice x0) vb (np.sub y0 ly (np.rows a))
              = np.sub y0 ly (np.rows a)).
  { destruct Hz as [-> | ->].
    - unfold np.sub. simpl. apply zip_with_nil_r.
    - apply zip_with_splice_nil; [|rewrite length_sub; lia].
      unfold vb, np.map2d, np.broadcast_rows.
      apply Forall_fmap, Forall_fmap, Forall_stretch.
      eapply Forall_impl; [exact Wv|]. intros r Hr. simpl in *.
      rewrite stretch_0; [done|].
      unfold np.broadcastable in Hb. apply andb_prop in Hb as [_ Hb].
      apply orb_prop in Hb as [Hb|Hb]; apply Nat.eqb_eq in Hb; lia. }
  destruct a as [da ua ca ra]. unfold np.with_rows. simpl in *.
  f_equal. rewrite E. apply take_sub_drop.
Qed.

(** ** [to_image]: shape argument, result, and boxes without overlap *)

Lemma to_image_no_overlap_cases m H W z :
  np.zeros H W np.float64 = Ok z ->
  no_overlap (bbox m) H W ->
  match to_image_try m z with
  | Ok a => to_image m [H; W] = Ok (PyArr a)
  | Raise e => e = ValueError /\ to_image m [H; W] = Ok PyNone
  end.
Proof.
  intros Hz Hno. unfold to_image. rewrite Hz. cbn [bind].
  destruct (to_image_try m z) as [a|e] eqn:Et; [done|].
  unfold to_image_try in Et. apply setitem_raises in Et as ->.
  split; [done|]. unfold to_image_fallback.
  apply overlap_slices_None in Hno. by rewrite Hno.
Qed.

Lemma to_image_bad_shape m shape :
  ~ (exists H W, shape = [H; W] /\ 0 <= H /\ 0 <= W) ->
  to_image m shape = Raise ValueError.
Proof.
  intros Hbad. destruct shape as [|H [|W [|? ?]]]; try done.
  unfold to_image.
  destruct (np.zeros H W np.float64) as [z|e] eqn:Ez.
  - exfalso. apply Hbad. exists H, W.
    apply zeros_inv in Ez as (? & ? & _). done.
  - apply zeros_raises in Ez as [-> _]. done.
Qed.

Lemma to_image_good_shape m H W :
  Mask_ok m -> bbox_ok (bbox m) -> 0 <= H -> 0 <= W ->
  exists v, to_image m [H; W] = Ok v.
Proof.
  intros Hm Hb HH HW.
  destruct (decide (no_overlap (bbox m) H W)) as [Hno|Hov].
  - pose proof (to_image_no_overlap_cases m H W _
                  (zeros_ok H W np.float64 HH HW) Hno) as C.
    destruct (to_image_try m _); [eauto|]. destruct C as [_ C]. eauto.
  - destruct (to_image_overlap m H W Hm Hb HH HW Hov) as (a & Ea & _). eauto.
Qed.

(** X5: whatever the mask, an array returned by [to_image] has the given
    two-element shape, the float dtype of [np.zeros] and no unit. *)
Theorem to_image_result_header (m : Mask) (shape : list Z) (a : np.ndarray) :
  to_image m shape = Ok (PyArr a) ->
  exists H W, shape = [H; W] /\ np.shape a = (H, W) /\
              np.dtype_of a = np.float64 /\ np.unit_of a = None.
Proof.
  destruct shape as [|H [|W [|? ?]]]; try done.
  intros E. exists H, W. split; [done|].
  pose proof (to_image_shape m H W a E) as S. split; [done|].
  revert E. unfold to_image, to_image_try.
  destruct (np.zeros H W np.float64) as [z|] eqn:Ez; cbn [bind]; try done.
  apply zeros_inv in Ez as (_ & _ & _ & _ & Dz & Uz & _).
  destruct (np.setitem z _ _) as [c|[]] eqn:Ec.
  - intros [= <-]. apply setitem_header in Ec as (_ & _ & D & U).
    split; congruence.
  - unfold to_image_fallback.
    destruct (_overlap_slices m [H; W]) as [[[sl ss]|]|]; cbn [bind];
      try done.
    destruct (np.zeros H W np.float64) as [z'|] eqn:Ez'; cbn [bind]; try done.
    apply zeros_inv in Ez' as (_ & _ & _ & _ & Dz' & Uz' & _).
    destruct (np.setitem z' sl _) as [c|] eqn:Ec'; cbn [bind]; try done.
    intros [= <-]. apply setitem_header in Ec' as (_ & _ & D & U).
    split; congruence.
  - done.
  - done.
Qed.

Lemma to_image_result_header_witness :
  exists a, to_image m_part [4; 4] = Ok (PyArr a) /\ np.shape a = (4, 4).
Proof.
  eexists. split; [reflexivity|].
  destruct (to_image_result_header m_part [4; 4] _ eq_refl)
    as (H & W & E & S & _).
  injection E as <- <-. exact S.
Defined.

(** X6: on a mask that satisfies the constructor's invariant, with a
    nonempty box that overlaps a target of shape [(H, W)], [to_image]
    returns an array of that shape which holds the mask's weight, cast to
    float, at every target pixel inside the box and zero at every other
    pixel: the weights outside the target are dropped. *)
Theorem to_image_overlap_image (m : Mask) (H W : Z) :
  Mask_ok m -> bbox_ok (bbox m) -> 0 <= H -> 0 <= W ->
  ~ no_overlap (bbox m) H W ->
  exists a,
    to_image m [H; W] = Ok (PyArr a) /\ np.shape a = (H, W) /\
    forall i j, Z.of_nat i < H -> Z.of_nat j < W ->
      np.item a i j =
        if decide (in_box (bbox m) (Z.of_nat i) (Z.of_nat j))
        then np.cast (np.dtype_of (data m)) np.float64 <$>
               np.item (data m) (Z.to_nat (Z.of_nat i - iymin (bbox m)))
                                (Z.to_nat (Z.of_nat j - ixmin (bbox m)))
        else Some 0%Q.
Proof.
  intros Hm Hb HH HW Hov.
  destruct (to_image_overlap m H W Hm Hb HH HW Hov)
    as (a & Ea & _ & Sa & _ & _ & Ia).
  eauto.
Qed.

Lemma to_image_overlap_image_witness :
  to_image m_part [4; 4] =
    Ok (PyArr (plain np.float64 4
                 [[4; 0; 0; 0]; [0; 0; 0; 0]; [0; 0; 0; 0]; [0; 0; 0; 0]]%Q)) /\
  exists a, to_image m_part [4; 4] = Ok (PyArr a) /\ np.shape a = (4, 4).
Proof.
  split; [reflexivity|].
  assert (Hm : Mask_ok m_part).
  { apply Mask_ok_sample; [|reflexivity]. repeat constructor. }
  assert (Hb : bbox_ok (bbox m_part)) by (unfold bbox_ok; simpl; lia).
  assert (H4 : 0 <= 4) by lia.
  assert (Hov : ~ no_overlap (bbox m_part) 4 4)
    by (unfold no_overlap; simpl; lia).
  destruct (to_image_overlap_image m_part 4 4 Hm Hb H4 H4 Hov)
    as (a & Ea & Sa & _).
  exists a. by split.
Defined.

Lemma overlap_slices_two_no_raise m H W e :
  _overlap_slices m [H; W] <> Raise e.
Proof.
  destruct (decide (no_overlap (bbox m) H W)) as [Hn|Hn].
  - apply overlap_slices_None in Hn. congruence.
  - rewrite (overlap_slices_Some m H W Hn). done.
Qed.

Lemma to_image_raises_ValueError m shape e :
  to_image m shape = Raise e -> e = ValueError.
Proof.
  destruct shape as [|H [|W [|? ?]]]; try (by intros [= <-]).
  unfold to_image.
  destruct (np.zeros H W np.float64) as [z|e'] eqn:Ez; cbn [bind].
  2:{ intros [= <-]. by apply zeros_raises in Ez as [-> _]. }
  destruct (to_image_try m z) as [a|e'] eqn:Et; [done|].
  unfold to_image_try in Et. apply setitem_raises in Et as ->.
  unfold to_image_fallback.
  destruct (_overlap_slices m [H; W]) as [[[sl ss]|]|e'] eqn:Eo; cbn [bind];
    try done.
  - rewrite Ez. cbn [bind].
    destruct (np.setitem z sl _) as [c|e'] eqn:Ec; cbn [bind]; [done|].
    intros [= <-]. by apply setitem_raises in Ec.
  - by apply overlap_slices_two_no_raise in Eo.
Qed.

(** X7: whatever the mask, the only exception [to_image] raises is
    [ValueError]; on a mask that satisfies the invariants, [to_image]
    raises exactly when the shape argument has not two elements or has a
    negative element. *)
Theorem to_image_raises_iff (m : Mask) (shape : list Z) :
  (forall e, to_image m shape = Raise e -> e = ValueError) /\
  (Mask_ok m -> bbox_ok (bbox m) ->
   ((exists e, to_image m shape = Raise e) <->
    ~ (exists H W, shape = [H; W] /\ 0 <= H /\ 0 <= W))).
Proof.
  split; [apply to_image_raises_ValueError|].
  intros Hm Hb.
  assert (D : (exists H W, shape = [H; W] /\ 0 <= H /\ 0 <= W) \/
              ~ (exists H W, shape = [H; W] /\ 0 <= H /\ 0 <= W)).
  { destruct shape as [|H [|W [|? ?]]];
      try (right; by intros (? & ? & ? & _)).
    destruct (decide (0 <= H /\ 0 <= W)) as [?|N]; [left; eauto|].
    right. intros (? & ? & [= <- <-] & ?). tauto. }
  destruct D as [(H & W & -> & HH & HW)|Hbad].
  - destruct (to_image_good_shape m H W Hm Hb HH HW) as [v Ev].
    split.
    + intros [e Ee]. congruence.
    + intros N. exfalso. apply N. eauto.
  - rewrite (to_image_bad_shape m shape Hbad). split; eauto.
Qed.

Lemma to_image_raises_iff_witness :
  exists e, to_image m_part [4; -1] = Raise e.
Proof.
  assert (Hm : Mask_ok m_part).
  { apply Mask_ok_sample; [|reflexivity]. repeat constructor. }
  assert (Hb : bbox_ok (bbox m_part)) by (unfold bbox_ok; simpl; lia).
  apply (proj2 (proj2 (to_image_raises_iff m_part [4; -1]) Hm Hb)).
  intros (H & W & [= <- <-] & _ & HW). lia.
Defined.

(** X8: on a mask that satisfies the invariants, whose nonempty box fails
    the four-inequality test against a target of shape [(H, W)] and has no
    axis wholly at negative indices, [to_image] writes no weight: it returns
    [None] or the all-zero image.  It returns [None] when the mask has at
    least two rows and two columns, and the all-zero image, not [None], when
    the mask is a single pixel, whose value numpy broadcasts into the empty
    block. *)
Theorem to_image_no_overlap (m : Mask) (H W : Z) :
  Mask_ok m -> bbox_ok (bbox m) -> 0 <= H -> 0 <= W ->
  no_overlap (bbox m) H W -> 0 <= ixmax (bbox m) -> 0 <= iymax (bbox m) ->
  exists z,
    np.zeros H W np.float64 = Ok z /\
    (to_image m [H; W] = Ok PyNone \/ to_image m [H; W] = Ok (PyArr z)) /\
    ((2 <= np.nrows (data m))%nat -> (2 <= np.ncols (data m))%nat ->
     to_image m [H; W] = Ok PyNone) /\
    (Mask_shape m = (1, 1) -> to_image m [H; W] = Ok (PyArr z)).
Proof.
  intros Hm Hb HH HW Hno Hx Hy.
  pose proof (zeros_ok H W np.float64 HH HW) as Hz.
  eexists. split; [exact Hz|]. set (z := np.NdArray _ _ _ _) in *.
  destruct (zeros_dims _ _ _ _ Hz) as (Wz & Nz & Cz).
  destruct (Mask_ok_dims m Hm) as [Hrows Hcols].
  pose proof (to_image_no_overlap_cases m H W z Hz Hno) as C.
  assert (Hempty :
    snd (np.indices (bbox_slices (bbox m)).1 (np.nrows z)) = 0%nat \/
    snd (np.indices (bbox_slices (bbox m)).2 (np.ncols z)) = 0%nat).
  { destruct Hb as [Bx By]. unfold no_overlap in Hno. simpl.
    assert (D :
      (iymin (bbox m) >= Z.of_nat (np.nrows z) \/ iymax (bbox m) <= 0) \/
      (ixmin (bbox m) >= Z.of_nat (np.ncols z) \/ ixmax (bbox m) <= 0))
      by lia.
    destruct D as [D|D]; [left|right]; by apply own_indices_empty. }
  clearbody z.
  split; [|split].
  - destruct (to_image_try m z) as [a|e] eqn:Et.
    + right. rewrite C. do 2 f_equal.
      destruct Hm as [Wm _]. by apply (setitem_empty _ _ _ _ Wm Et).
    + left. by destruct C.
  - intros Hr Hc.
    assert (Et : to_image_try m z = Raise ValueError).
    { unfold to_image_try, np.setitem.
      destruct (np.indices _ (np.nrows z)) as [y0 ly].
      destruct (np.indices _ (np.ncols z)) as [x0 lx].
      simpl in Hempty. unfold np.broadcastable.
      destruct (Nat.eqb_spec (np.nrows (data m)) ly),
               (Nat.eqb_spec (np.nrows (data m)) 1),
               (Nat.eqb_spec (np.ncols (data m)) lx),
               (Nat.eqb_spec (np.ncols (data m)) 1); simpl; try done;
        exfalso; lia. }
    rewrite Et in C. by destruct C.
  - intros Hs. unfold Mask_shape, np.shape in Hs. injection Hs as Hr Hc.
    destruct (to_image_try m z) as [a|e] eqn:Et.
    + rewrite C. do 2 f_equal.
      destruct Hm as [Wm _]. by apply (setitem_empty _ _ _ _ Wm Et).
    + exfalso. unfold to_image_try, np.setitem in Et.
      destruct (np.indices _ (np.nrows z)) as [y0 ly].
      destruct (np.indices _ (np.ncols z)) as [x0 lx].
      unfold np.broadcastable in Et.
      replace (np.nrows (data m)) with 1%nat in Et by lia.
      replace (np.ncols (data m)) with 1%nat in Et by lia.
      simpl in Et. rewrite !orb_true_r in Et. done.
Qed.

Lemma to_image_no_overlap_witness :
  to_image m_far [4; 4] = Ok PyNone /\
  exists z, np.zeros 4 4 np.float64 = Ok z /\
            to_image m_dot [4; 4] = Ok (PyArr z).
Proof.
  assert (H4 : 0 <= 4) by lia.
  assert (H7 : 0 <= 7) by lia.
  assert (H6 : 0 <= 6) by lia.
  split.
  - assert (Hm : Mask_ok m_far).
    { apply Mask_ok_sample; [|reflexivity]. repeat constructor. }
    assert (Hb : bbox_ok (bbox m_far)) by (unfold bbox_ok; simpl; lia).
    assert (Hno : no_overlap (bbox m_far) 4 4)
      by (unfold no_overlap; simpl; lia).
    destruct (to_image_no_overlap m_far 4 4 Hm Hb H4 H4 Hno H7 H7)
      as (z & _ & _ & N & _).
    apply N; compute; lia.
  - assert (Hm : Mask_ok m_dot).
    { apply Mask_ok_sample; [|reflexivity]. repeat constructor. }
    assert (Hb : bbox_ok (bbox m_dot)) by (unfold bbox_ok; simpl; lia).
    assert (Hno : no_overlap (bbox m_dot) 4 4)
      by (unfold no_overlap; simpl; lia).
    destruct (to_image_no_overlap m_dot 4 4 Hm Hb H4 H4 Hno H6 H6)
      as (z & Ez & _ & _ & A).
    exists z. split; [exact Ez|]. by apply A.
Defined.

(** ** [None] and exceptions of [cutout] *)


Lemma cutout_raises m d fill_value e :
  cutout m d fill_value = Raise e -> e = ValueError \/ e = OverflowError.
Proof.
  unfold cutout. destruct (np.shape_eqb _ _); simpl; [done|].
  unfold cutout_fallback.
  destruct (_overlap_slices m _) as [[[sl ss]|]|e'] eqn:Eo; cbn [bind];
    try done.
  - destruct (np.zeros _ _ _) as [z|e'] eqn:Ez; cbn [bind].
    + destruct (np.fill z fill_value) as [f|e'] eqn:Ef; cbn [bind].
      * destruct (np.setitem f ss _) as [c|e'] eqn:Ec; cbn [bind]; [done|].
        intros [= <-]. left. by apply setitem_raises in Ec.
      * intros [= <-]. right. by apply fill_raises in Ef as [-> _].
    + intros [= <-]. left. by apply zeros_raises in Ez as [-> _].
  - by apply overlap_slices_two_no_raise in Eo.
Qed.

Lemma cutout_fallback_None m d fill_value :
  cutout_fallback m d fill_value = Ok PyNone ->
  no_overlap (bbox m) (fst (np.shape d)) (snd (np.shape d)).
Proof.
  intros E. apply overlap_slices_None.
  apply cutout_fallback_inv in E as [[_ E]|E]; [done|].
  by destruct E as (sl & ss & z & f & c & _ & _ & _ & _ & ?).
Qed.

(** The box's own slice keeps the length of the box exactly when the axis
    fits. *)
Lemma own_indices_fits_iff lo hi n :
  lo < hi ->
  Z.of_nat (snd (np.indices (np.Slice lo hi) n)) = hi - lo <->
  axis_fits lo hi (Z.of_nat n).
Proof.
  unfold np.indices, np.clip, axis_fits. simpl. intros ?.
  destruct (Z.ltb_spec lo 0), (Z.ltb_spec hi 0); lia.
Qed.

Lemma own_indices_fits lo hi n :
  lo < hi -> axis_fits lo hi (Z.of_nat n) ->
  np.indices (np.Slice lo hi) n =
    (Z.to_nat (np.clip lo (Z.of_nat n)), Z.to_nat (hi - lo)).
Proof.
  unfold np.indices, np.clip, axis_fits. simpl. intros ? ?.
  destruct (Z.ltb_spec lo 0), (Z.ltb_spec hi 0); f_equal; lia.
Qed.

Lemma cutout_fast_shape_iff m d :
  Mask_ok m -> bbox_ok (bbox m) ->
  np.shape (cutout_fast m d) = Mask_shape m <->
  fits (bbox m) (fst (np.shape d)) (snd (np.shape d)).
Proof.
  intros [_ Es] [Bx By]. unfold cutout_fast, fits.
  rewrite getitem_shape, Es. unfold bbox_shape.
  cbn [fst snd bbox_slices np.shape].
  rewrite <- !own_indices_fits_iff by done.
  split; [intros [= ? ?]; done|intros [-> ->]; done].
Qed.

(** X9: [to_image] and [cutout] return [None] only for a box that fails
    the four-inequality test, whatever the mask and the data. *)
Theorem None_only_without_overlap (m : Mask) :
  (forall shape, to_image m shape = Ok PyNone ->
     exists H W, shape = [H; W] /\ no_overlap (bbox m) H W) /\
  (forall d fill_value, cutout m d fill_value = Ok PyNone ->
     no_overlap (bbox m) (fst (np.shape d)) (snd (np.shape d))).
Proof.
  split.
  - intros shape. destruct shape as [|H [|W [|? ?]]]; try done.
    intros E. exists H, W. split; [done|].
    apply overlap_slices_None. revert E. unfold to_image.
    destruct (np.zeros H W np.float64) as [z|]; cbn [bind]; try done.
    destruct (to_image_try m z) as [a|[| |]]; try done.
    unfold to_image_fallback.
    destruct (_overlap_slices m [H; W]) as [[[sl ss]|]|]; cbn [bind];
      try done.
    destruct (np.zeros H W np.float64) as [z'|]; cbn [bind]; try done.
    by destruct (np.setitem z' sl _).
  - intros d fv. unfold cutout.
    destruct (np.shape_eqb _ _); simpl; [done|].
    apply cutout_fallback_None.
Qed.

Lemma None_only_without_overlap_witness :
  no_overlap (bbox m_far) (fst (np.shape d44)) (snd (np.shape d44)).
Proof.
  exact (proj2 (None_only_without_overlap m_far) d44 0%Q eq_refl).
Defined.

(** X10: on a mask that satisfies the invariants and a rectangular data
    array, [cutout] raises exactly when the box overlaps the data without
    lying inside it and [fill_value] cannot be stored in the data's dtype,
    that is, when the data is integer and [int(fill_value)] is outside the
    64-bit range; the exception is [OverflowError].  In every other case it
    returns an array or [None]. *)
Theorem cutout_raises_iff (m : Mask) (d : np.ndarray) (fill_value : Q) :
  Mask_ok m -> bbox_ok (bbox m) -> np.wf d ->
  ((exists e, cutout m d fill_value = Raise e) <->
   ~ no_overlap (bbox m) (fst (np.shape d)) (snd (np.shape d)) /\
   ~ inside (bbox m) (fst (np.shape d)) (snd (np.shape d)) /\
   np.fits_dtype (np.dtype_of d) fill_value = false) /\
  (forall e, cutout m d fill_value = Raise e -> e = OverflowError) /\
  ((forall e, cutout m d fill_value <> Raise e) ->
   cutout m d fill_value = Ok PyNone \/
   exists a, cutout m d fill_value = Ok (PyArr a)).
Proof.
  intros Hm Hb Hd.
  assert (C :
    (cutout m d fill_value = Raise OverflowError /\
     ~ no_overlap (bbox m) (fst (np.shape d)) (snd (np.shape d)) /\
     ~ inside (bbox m) (fst (np.shape d)) (snd (np.shape d)) /\
     np.fits_dtype (np.dtype_of d) fill_value = false) \/
    ((exists v, cutout m d fill_value = Ok v) /\
     ~ (~ no_overlap (bbox m) (fst (np.shape d)) (snd (np.shape d)) /\
        ~ inside (bbox m) (fst (np.shape d)) (snd (np.shape d)) /\
        np.fits_dtype (np.dtype_of d) fill_value = false))).
  { destruct (decide (no_overlap (bbox m) (fst (np.shape d))
                        (snd (np.shape d)))) as [Hno|Hov].
    { right. split; [|tauto]. unfold cutout.
      destruct (np.shape_eqb _ _); simpl; [eauto|].
      unfold cutout_fallback.
      apply overlap_slices_None in Hno. rewrite Hno. eauto. }
    destruct (decide (inside (bbox m) (fst (np.shape d))
                        (snd (np.shape d)))) as [Hin|Hni].
    { right. split; [|tauto].
      destruct (cutout_overlap m d fill_value Hm Hb Hd Hov (or_introl Hin))
        as (a & E & _). eauto. }
    destruct (np.fits_dtype (np.dtype_of d) fill_value) eqn:Hfit.
    { right. split; [|by intros (_ & _ & ?)].
      destruct (cutout_overlap m d fill_value Hm Hb Hd Hov (or_intror Hfit))
        as (a & E & _). eauto. }
    left. split; [|done]. unfold cutout.
    destruct (np.shape_eqb _ _) eqn:E; simpl.
    - apply shape_eqb_eq in E.
      by destruct (cutout_fast_overlap m d fill_value Hm Hb Hd Hov E).
    - by apply cutout_fallback_overflow. }
  destruct C as [(E & H1 & H2 & H3)|[[v E] N]]; rewrite E.
  - split; [split; eauto|]. split; [by intros e [= <-]|].
    intros H. by destruct (H OverflowError).
  - split; [split; [by intros [e ?]|tauto]|]. split; [done|].
    intros _. destruct v; eauto.
Qed.

Lemma cutout_raises_iff_witness :
  exists e, cutout m_part d44 (10 ^ 19)%Q = Raise e.
Proof.
  assert (Hm : Mask_ok m_part).
  { apply Mask_ok_sample; [|reflexivity]. repeat constructor. }
  assert (Hb : bbox_ok (bbox m_part)) by (unfold bbox_ok; simpl; lia).
  assert (Hd : np.wf d44) by repeat constructor.
  apply (proj2 (proj1 (cutout_raises_iff m_part d44 (10 ^ 19)%Q Hm Hb Hd))).
  split; [|split].
  - unfold no_overlap, np.shape, np.nrows, np.ncols, d44, plain.
    simpl. lia.
  - unfold inside, np.shape, np.nrows, np.ncols, d44, plain.
    simpl. lia.
  - reflexivity.
Defined.

Lemma cutout_None_fits (m : Mask) (d : np.ndarray) (fill_value : Q) :
  Mask_ok m -> bbox_ok (bbox m) ->
  cutout m d fill_value = Ok PyNone <->
  no_overlap (bbox m) (fst (np.shape d)) (snd (np.shape d)) /\
  ~ fits (bbox m) (fst (np.shape d)) (snd (np.shape d)).
Proof.
  intros Hm Hb. rewrite <- (cutout_fast_shape_iff m d Hm Hb). split.
  - intros E. split.
    + revert E. unfold cutout.
      destruct (np.shape_eqb _ _); simpl; [done|].
      apply cutout_fallback_None.
    + intros S. apply shape_eqb_eq in S. unfold cutout in E.
      by rewrite S in E.
  - intros [Hno S]. by apply cutout_no_overlap_None.
Qed.

(** X11: on a mask that satisfies the invariants, [cutout] returns [None]
    exactly when the box fails the four-inequality test and some axis of
    the box does not keep its length under numpy's slicing, that is, lies
    neither within the data nor wholly at negative indices that wrap into
    the data. *)
Theorem cutout_None_iff (m : Mask) (d : np.ndarray) (fill_value : Q) :
  Mask_ok m -> bbox_ok (bbox m) ->
  cutout m d fill_value = Ok PyNone <->
  no_overlap (bbox m) (fst (np.shape d)) (snd (np.shape d)) /\
  ~ fits (bbox m) (fst (np.shape d)) (snd (np.shape d)).
Proof. apply cutout_None_fits. Qed.

Lemma cutout_None_iff_witness :
  cutout m_far d44 9%Q = Ok PyNone /\ cutout m_neg d44 9%Q <> Ok PyNone.
Proof.
  assert (Hf : Mask_ok m_far).
  { apply Mask_ok_sample; [|reflexivity]. repeat constructor. }
  assert (Bf : bbox_ok (bbox m_far)) by (unfold bbox_ok; simpl; lia).
  assert (Hn : Mask_ok m_neg).
  { apply Mask_ok_sample; [|reflexivity]. repeat constructor. }
  assert (Bn : bbox_ok (bbox m_neg)) by (unfold bbox_ok; simpl; lia).
  split.
  - apply (proj2 (cutout_None_iff m_far d44 9%Q Hf Bf)). split.
    + unfold no_overlap. simpl. lia.
    + unfold fits, axis_fits, np.shape, np.nrows, np.ncols, d44, plain.
      simpl. lia.
  - intros E. apply (proj1 (cutout_None_iff m_neg d44 9%Q Hn Bn)) in E.
    destruct E as [_ E]. apply E.
    unfold fits, axis_fits, np.shape, np.nrows, np.ncols, d44, plain.
    simpl. lia.
Defined.

(** X12: on a mask that satisfies the invariants and a rectangular data
    array, when both axes of the box keep their length, [cutout] returns
    the block of the data that numpy's slicing selects, with the data's
    dtype and unit and without any use of [fill_value]: the block at the
    box itself for a box inside the data, and for an axis wholly at
    negative indices the block counted back from the end of that axis. *)
Theorem cutout_fits_block (m : Mask) (d : np.ndarray) (fill_value : Q) :
  Mask_ok m -> bbox_ok (bbox m) -> np.wf d ->
  fits (bbox m) (fst (np.shape d)) (snd (np.shape d)) ->
  exists a,
    cutout m d fill_value = Ok (PyArr a) /\
    np.shape a = Mask_shape m /\
    np.dtype_of a = np.dtype_of d /\ np.unit_of a = np.unit_of d /\
    forall i j, (i < np.nrows (data m))%nat -> (j < np.ncols (data m))%nat ->
      np.item a i j =
        np.item d
          (Z.to_nat (np.clip (iymin (bbox m)) (fst (np.shape d))) + i)
          (Z.to_nat (np.clip (ixmin (bbox m)) (snd (np.shape d))) + j).
Proof.
  intros Hm Hb Hd Hf.
  pose proof (proj2 (cutout_fast_shape_iff m d Hm Hb) Hf) as S.
  exists (cutout_fast m d). split.
  { unfold cutout. apply shape_eqb_eq in S. by rewrite S. }
  split; [done|].
  destruct (Mask_ok_dims m Hm) as [Hrows Hcols].
  destruct Hb as [Bx By]. destruct Hf as [Fy Fx].
  cbn [fst snd np.shape] in *.
  pose proof (own_indices_fits _ _ _ By Fy) as Iy.
  pose proof (own_indices_fits _ _ _ Bx Fx) as Ix.
  destruct (getitem_spec d (bbox_slices (bbox m)) _ _ _ _ Hd Iy Ix)
    as (_ & _ & _ & Dc & Uc & Ic).
  split; [done|]. split; [done|].
  intros i j Hi Hj. apply Ic; lia.
Qed.

Lemma cutout_fits_block_witness :
  exists a, cutout m_neg d44 9%Q = Ok (PyArr a) /\
            np.item a 0 0 = np.item d44 1 1.
Proof.
  assert (Hn : Mask_ok m_neg).
  { apply Mask_ok_sample; [|reflexivity]. repeat constructor. }
  assert (Bn : bbox_ok (bbox m_neg)) by (unfold bbox_ok; simpl; lia).
  assert (Hd : np.wf d44) by repeat constructor.
  assert (Hf : fits (bbox m_neg) (fst (np.shape d44)) (snd (np.shape d44)))
    by (unfold fits, axis_fits, np.shape, np.nrows, np.ncols, d44, plain;
        simpl; lia).
  destruct (cutout_fits_block m_neg d44 9%Q Hn Bn Hd Hf)
    as (a & Ea & _ & _ & _ & Ia).
  exists a. split; [exact Ea|].
  apply (Ia 0%nat 0%nat); compute; lia.
Defined.

(** X13: whatever the mask and the data, an array that [cutout] returns
    through the direct slice has the dtype of the data; through the fallback
    it has the dtype of the data when the data is a plain array and the
    float dtype when the data is a [Quantity].  So the dtype is that of the
    data whenever the data is plain or float. *)
Theorem cutout_keeps_dtype (m : Mask) (d : np.ndarray) (fill_value : Q)
    (a : np.ndarray) :
  cutout m d fill_value = Ok (PyArr a) ->
  (np.shape (cutout_fast m d) = Mask_shape m ->
   np.dtype_of a = np.dtype_of d) /\
  (np.shape (cutout_fast m d) <> Mask_shape m ->
   np.dtype_of a = fallback_dtype d) /\
  (np.unit_of d = None \/ np.dtype_of d = np.float64 ->
   np.dtype_of a = np.dtype_of d).
Proof.
  intros E. pose proof (cutout_dtype _ _ _ _ E) as D.
  destruct (np.shape_eqb _ _) eqn:S.
  - apply shape_eqb_eq in S. by repeat split.
  - assert (N : np.shape (cutout_fast m d) <> Mask_shape m).
    { intros N. apply shape_eqb_eq in N. congruence. }
    split; [done|]. split; [done|].
    intros [U|F]; rewrite D; unfold fallback_dtype.
    + by rewrite U.
    + by destruct (np.unit_of d).
Qed.

Lemma cutout_keeps_dtype_witness :
  np.dtype_of (plain np.int64 2 [[0; 0]; [0; 1]]%Q) = np.dtype_of d44.
Proof.
  exact (proj2 (proj2 (cutout_keeps_dtype m_part d44 (1 # 2)%Q _ eq_refl))
           (or_introl eq_refl)).
Defined.

(** ** [multiply] *)

Lemma broadcast_rows_same v h w :
  np.wf v -> np.nrows v = h -> np.ncols v = w ->
  np.broadcast_rows v h w = np.rows v.
Proof.
  intros Wv Hh Hw. unfold np.broadcast_rows.
  rewrite stretch_same by done.
  rewrite <- (list_fmap_id (np.rows v)) at 2.
  apply Forall_fmap_ext_1. eapply Forall_impl; [exact Wv|].
  intros r Hr. simpl in *. apply stretch_same. lia.
Qed.

(** The product of two rectangular arrays of the same shape. *)
Lemma multiply_same_shape a b :
  np.wf a -> np.wf b -> np.shape a = np.shape b ->
  exists r,
    np.multiply a b = Ok r /\ np.wf r /\ np.shape r = np.shape a /\
    np.dtype_of r = np.promote (np.dtype_of a) (np.dtype_of b) /\
    np.unit_of r = np.mul_unit (np.unit_of a) (np.unit_of b) /\
    forall i j,
      np.item r i j =
        match np.item a i j, np.item b i j with
        | Some x, Some y => Some (np.mul (np.dtype_of r) x y)
        | _, _ => None
        end.
Proof.
  intros Wa Wb S. destruct (shape_inj a b S) as [N C].
  unfold np.multiply.
  replace (if (np.nrows a =? 1)%nat then np.nrows b else np.nrows a)
    with (np.nrows a) by (rewrite N; by destruct (_ =? _)%nat).
  replace (if (np.ncols a =? 1)%nat then np.ncols b else np.ncols a)
    with (np.ncols a) by (rewrite C; by destruct (_ =? _)%nat).
  assert (Ba : np.broadcastable (np.nrows a) (np.ncols a)
                 (np.nrows a) (np.ncols a) = true).
  { unfold np.broadcastable. by rewrite !Nat.eqb_refl. }
  assert (Bb : np.broadcastable (np.nrows b) (np.ncols b)
                 (np.nrows a) (np.ncols a) = true).
  { unfold np.broadcastable. by rewrite N, C, !Nat.eqb_refl. }
  rewrite Ba, Bb. simpl.
  rewrite (broadcast_rows_same a) by done.
  rewrite (broadcast_rows_same b) by done.
  eexists. split; [done|].
  unfold np.wf, np.shape, np.nrows, np.item in *. simpl.
  set (f := np.mul _).
  assert (L : length (zip_with (zip_with f) (np.rows a) (np.rows b))
              = length (np.rows a)).
  { rewrite length_zip_with. lia. }
  split; [|split; [by rewrite L|split; [done|split; [done|]]]].
  - apply Forall_lookup. intros i r Hr.
    apply lookup_zip_with_Some in Hr as (ra & rb & -> & Ha & Hb).
    pose proof (Forall_lookup_1 _ _ _ _ Wa Ha) as La.
    pose proof (Forall_lookup_1 _ _ _ _ Wb Hb) as Lb.
    simpl in *. rewrite length_zip_with. lia.
  - intros i j. rewrite lookup_zip_with.
    destruct (np.rows a !! i) as [ra|]; simpl; [|done].
    destruct (np.rows b !! i) as [rb|]; simpl.
    + rewrite lookup_zip_with.
      destruct (ra !! j); simpl; [|done]. by destruct (rb !! j).
    + by destruct (ra !! j).
Qed.

Lemma multiply_result m d fill_value :
  match cutout m d fill_value with
  | Ok PyNone => multiply m d fill_value = Raise TypeError
  | Ok (PyArr c) =>
      match np.multiply c (data m) with
      | Ok r => multiply m d fill_value = Ok (PyArr r)
      | Raise _ => multiply m d fill_value = Raise ValueError
      end
  | Raise e =>
      multiply m d fill_value = Raise e /\
      (e = ValueError \/ e = OverflowError)
  end.
Proof.
  unfold multiply.
  destruct (cutout m d fill_value) as [[|c]|e] eqn:Ec; cbn [bind py_mul].
  - done.
  - destruct (np.multiply c (data m)) as [r|e] eqn:Er; cbn [bind]; [done|].
    by apply multiply_raises in Er as ->.
  - split; [done|]. by apply cutout_raises in Ec.
Qed.

(** X14: on a mask that satisfies the invariants, with a nonempty box that
    overlaps a rectangular data array, when the box lies inside the data or
    [fill_value] can be stored in the data's dtype, [multiply] returns an
    array of the mask's shape whose every pixel is the product of the pixel
    of the cutout and the weight of the mask, taken in the result's dtype:
    the promotion of the cutout's and the weights' dtypes, in which a
    product of two integers wraps around to 64 bits.  It carries the unit of
    the data (times that of the weights, if they have one). *)
Theorem multiply_overlap (m : Mask) (d : np.ndarray) (fill_value : Q) :
  Mask_ok m -> bbox_ok (bbox m) -> np.wf d ->
  ~ no_overlap (bbox m) (fst (np.shape d)) (snd (np.shape d)) ->
  inside (bbox m) (fst (np.shape d)) (snd (np.shape d)) \/
  np.fits_dtype (np.dtype_of d) fill_value = true ->
  exists c r,
    cutout m d fill_value = Ok (PyArr c) /\
    multiply m d fill_value = Ok (PyArr r) /\
    np.shape r = Mask_shape m /\
    np.dtype_of r = np.promote (np.dtype_of c) (np.dtype_of (data m)) /\
    np.unit_of r = np.mul_unit (np.unit_of d) (np.unit_of (data m)) /\
    forall i j,
      np.item r i j =
        match np.item c i j, np.item (data m) i j with
        | Some x, Some w => Some (np.mul (np.dtype_of r) x w)
        | _, _ => None
        end.
Proof.
  intros Hm Hb Hd Hov Hor.
  destruct (cutout_overlap m d fill_value Hm Hb Hd Hov Hor)
    as (c & Ec & Wc & Sc & Uc & _).
  destruct Hm as [Wm _].
  destruct (multiply_same_shape c (data m) Wc Wm Sc)
    as (r & Er & _ & Sr & Dr & Ur & Ir).
  exists c, r. split; [done|].
  pose proof (multiply_result m d fill_value) as M.
  rewrite Ec, Er in M. split; [done|].
  split; [by rewrite Sr|]. split; [done|].
  split; [by rewrite Ur, Uc|]. exact Ir.
Qed.

Lemma multiply_overlap_witness :
  multiply m_part d44 9%Q =
    Ok (PyArr (plain np.float64 2 [[9; 18]; [27; 4]]%Q)) /\
  exists c r, cutout m_part d44 9%Q = Ok (PyArr c) /\
              multiply m_part d44 9%Q = Ok (PyArr r) /\
              np.shape r = Mask_shape m_part.
Proof.
  split; [reflexivity|].
  assert (Hm : Mask_ok m_part).
  { apply Mask_ok_sample; [|reflexivity]. repeat constructor. }
  assert (Hb : bbox_ok (bbox m_part)) by (unfold bbox_ok; simpl; lia).
  assert (Hd : np.wf d44) by repeat constructor.
  assert (Hov : ~ no_overlap (bbox m_part)
                    (fst (np.shape d44)) (snd (np.shape d44))).
  { unfold no_overlap, np.shape, np.nrows, np.ncols, d44, plain.
    simpl. lia. }
  assert (Hfit : np.fits_dtype (np.dtype_of d44) 9%Q = true) by reflexivity.
  destruct (multiply_overlap m_part d44 9%Q Hm Hb Hd Hov (or_intror Hfit))
    as (c & r & Ec & Er & Sr & _).
  exists c, r. by repeat split.
Defined.

(** X15: [multiply] never returns [None], whatever its arguments.  On a
    mask that satisfies the invariants it raises [TypeError] exactly when
    [cutout] gives [None]: when the box fails the four-inequality test and
    some axis of the box does not keep its length under numpy's slicing. *)
Theorem multiply_TypeError_iff (m : Mask) (d : np.ndarray) (fill_value : Q) :
  multiply m d fill_value <> Ok PyNone /\
  (multiply m d fill_value = Raise TypeError <->
   cutout m d fill_value = Ok PyNone) /\
  (Mask_ok m -> bbox_ok (bbox m) ->
   (multiply m d fill_value = Raise TypeError <->
    no_overlap (bbox m) (fst (np.shape d)) (snd (np.shape d)) /\
    ~ fits (bbox m) (fst (np.shape d)) (snd (np.shape d)))).
Proof.
  pose proof (multiply_result m d fill_value) as M.
  assert (T : multiply m d fill_value = Raise TypeError <->
              cutout m d fill_value = Ok PyNone).
  { destruct (cutout m d fill_value) as [[|c]|e].
    - done.
    - destruct (np.multiply c (data m)); rewrite M; by split.
    - destruct M as [-> [-> | ->]]; by split. }
  split; [|split; [exact T|]].
  - destruct (cutout m d fill_value) as [[|c]|e]; try congruence.
    + destruct (np.multiply c (data m)); congruence.
    + destruct M as [-> _]. done.
  - intros Hm Hb. rewrite T. by apply cutout_None_fits.
Qed.

Lemma multiply_TypeError_iff_witness :
  multiply m_far d44 9%Q = Raise TypeError.
Proof.
  assert (Hf : Mask_ok m_far).
  { apply Mask_ok_sample; [|reflexivity]. repeat constructor. }
  assert (Bf : bbox_ok (bbox m_far)) by (unfold bbox_ok; simpl; lia).
  apply (proj2 (proj2 (proj2 (multiply_TypeError_iff m_far d44 9%Q)) Hf Bf)).
  split.
  - unfold no_overlap. simpl. lia.
  - unfold fits, axis_fits, np.shape, np.nrows, np.ncols, d44, plain.
    simpl. lia.
Defined.

(** ** [to_image] then [cutout] *)

(** X16: cutting the mask's own image out again gives the weights back.
    On a mask that satisfies the invariants, with a nonempty box that
    overlaps a target of shape [(H, W)], [cutout] of the array that
    [to_image] returns holds the mask's weight, cast to float, at every
    pixel of the mask that lies within the target and [fill_value] at the
    others; for a box inside the target and plain float weights it is the
    mask's own array. *)
Theorem cutout_of_to_image (m : Mask) (H W : Z) (fill_value : Q) :
  Mask_ok m -> bbox_ok (bbox m) -> 0 <= H -> 0 <= W ->
  ~ no_overlap (bbox m) H W ->
  exists img a,
    to_image m [H; W] = Ok (PyArr img) /\
    cutout m img fill_value = Ok (PyArr a) /\
    np.shape a = Mask_shape m /\
    (forall i j, (i < np.nrows (data m))%nat -> (j < np.ncols (data m))%nat ->
       np.item a i j =
         if decide (0 <= iymin (bbox m) + Z.of_nat i < H /\
                    0 <= ixmin (bbox m) + Z.of_nat j < W)
         then np.cast (np.dtype_of (data m)) np.float64 <$>
                np.item (data m) i j
         else Some fill_value) /\
    (inside (bbox m) H W -> np.dtype_of (data m) = np.float64 ->
     np.unit_of (data m) = None -> a = data m).
Proof.
  intros Hm Hb HH HW Hov.
  destruct (to_image_overlap m H W Hm Hb HH HW Hov)
    as (img & Ei & Wi & Si & Di & Ui & Ii).
  assert (Hov' : ~ no_overlap (bbox m)
                     (fst (np.shape img)) (snd (np.shape img)))
    by (by rewrite Si).
  assert (Hfit : np.fits_dtype (np.dtype_of img) fill_value = true)
    by (by rewrite Di).
  destruct (cutout_overlap m img fill_value Hm Hb Wi Hov' (or_intror Hfit))
    as (a & Ea & Wa & Sa & Ua & Ia).
  assert (Da : np.dtype_of a = np.float64).
  { rewrite (cutout_dtype _ _ _ _ Ea).
    destruct (np.shape_eqb _ _); [done|by apply fallback_dtype_float]. }
  destruct (Mask_ok_dims m Hm) as [Hrows Hcols].
  assert (Hitem : forall i j,
    (i < np.nrows (data m))%nat -> (j < np.ncols (data m))%nat ->
    np.item a i j =
      if decide (0 <= iymin (bbox m) + Z.of_nat i < H /\
                 0 <= ixmin (bbox m) + Z.of_nat j < W)
      then np.cast (np.dtype_of (data m)) np.float64 <$> np.item (data m) i j
      else Some fill_value).
  { intros i j Hi Hj. rewrite Ia by done. rewrite Da, Di.
    rewrite fmap_cast_same, !cast_same.
    assert (S1 : fst (np.shape img) = H) by (by rewrite Si).
    assert (S2 : snd (np.shape img) = W) by (by rewrite Si).
    destruct (decide (in_extent img _ _)) as [Hin|Hout];
      unfold in_extent in *; rewrite S1, S2 in *.
    - rewrite decide_True by done. rewrite Ii by lia.
      rewrite decide_True by (unfold in_box; lia).
      do 2 f_equal; lia.
    - by rewrite decide_False by done. }
  exists img, a. split; [done|]. split; [done|]. split; [done|].
  split; [exact Hitem|].
  intros (I1 & I2 & I3 & I4) Dm Um. destruct Hm as [Wm _].
  destruct (shape_inj a (data m) Sa) as [N C].
  apply array_ext; try congruence.
  intros i j Hi Hj. rewrite Hitem by lia.
  rewrite decide_True by lia. rewrite Dm.
  destruct (np.item (data m) i j); simpl; [|done]. by rewrite cast_same.
Qed.

Lemma cutout_of_to_image_witness :
  exists img, to_image m_in [4; 4] = Ok (PyArr img) /\
              cutout m_in img 9%Q = Ok (PyArr (data m_in)).
Proof.
  assert (Hm : Mask_ok m_in).
  { apply Mask_ok_sample; [|reflexivity]. repeat constructor. }
  assert (Hb : bbox_ok (bbox m_in)) by (unfold bbox_ok; simpl; lia).
  assert (H4 : 0 <= 4) by lia.
  assert (Hin : inside (bbox m_in) 4 4) by (unfold inside; simpl; lia).
  assert (Hov : ~ no_overlap (bbox m_in) 4 4)
    by (unfold no_overlap; simpl; lia).
  destruct (cutout_of_to_image m_in 4 4 9%Q Hm Hb H4 H4 Hov)
    as (img & a & Ei & Ea & _ & _ & E).
  exists img. split; [exact Ei|].
  rewrite <- (E Hin eq_refl eq_refl). exact Ea.
Defined.

(** ** [to_image] on a box that keeps its length *)

(** X17: on a mask that satisfies the invariants, when both axes of the
    box keep their length under numpy's slicing of a target of shape
    [(H, W)], the direct placement succeeds and [to_image] returns the
    zero image with the weights, cast to float, written as one block at
    the offsets numpy resolves: at the box itself for a box inside the
    target, and for an axis wholly at negative indices at the position
    counted back from the end of that axis. *)
Theorem to_image_fits_block (m : Mask) (H W : Z) :
  Mask_ok m -> bbox_ok (bbox m) -> 0 <= H -> 0 <= W ->
  fits (bbox m) H W ->
  exists a,
    to_image m [H; W] = Ok (PyArr a) /\ np.shape a = (H, W) /\
    forall i j, Z.of_nat i < H -> Z.of_nat j < W ->
      np.item a i j =
        if decide
             ((Z.to_nat (np.clip (iymin (bbox m)) H) <= i <
               Z.to_nat (np.clip (iymin (bbox m)) H) + np.nrows (data m))%nat /\
              (Z.to_nat (np.clip (ixmin (bbox m)) W) <= j <
               Z.to_nat (np.clip (ixmin (bbox m)) W) + np.ncols (data m))%nat)
        then np.cast (np.dtype_of (data m)) np.float64 <$>
               np.item (data m)
                 (i - Z.to_nat (np.clip (iymin (bbox m)) H))
                 (j - Z.to_nat (np.clip (ixmin (bbox m)) W))
        else Some 0%Q.
Proof.
  intros Hm Hb HH HW [Fy Fx].
  pose proof (zeros_ok H W np.float64 HH HW) as Hz.
  set (z := np.NdArray _ _ _ _) in *.
  destruct (zeros_dims _ _ _ _ Hz) as (Wz & Nz & Cz).
  destruct (Mask_ok_dims m Hm) as [Hrows Hcols].
  destruct Hb as [Bx By]. destruct Hm as [Wm _].
  rewrite <- Nz in Fy. rewrite <- Cz in Fx.
  pose proof (own_indices_fits _ _ _ By Fy) as Iy.
  pose proof (own_indices_fits _ _ _ Bx Fx) as Ix.
  rewrite Nz in Iy. rewrite Cz in Ix.
  destruct (setitem_exact z (bbox_slices (bbox m)) (data m) _ _ _ _
              Wz Wm Iy Ix ltac:(lia) ltac:(lia)) as (a & Ea & Wa & Ia).
  exists a.
  assert (E : to_image m [H; W] = Ok (PyArr a)).
  { unfold to_image. rewrite Hz. cbn [bind]. unfold to_image_try.
    by rewrite Ea. }
  split; [exact E|]. split; [by apply (to_image_shape m)|].
  intros i j Hi Hj. rewrite Ia by lia.
  apply zeros_inv in Hz as (_ & _ & _ & _ & Dz & _ & Iz). rewrite Dz.
  replace (Z.to_nat (iymax (bbox m) - iymin (bbox m)))
    with (np.nrows (data m)) by lia.
  replace (Z.to_nat (ixmax (bbox m) - ixmin (bbox m)))
    with (np.ncols (data m)) by lia.
  destruct (decide (_ /\ _)); [done|]. apply Iz; lia.
Qed.

Lemma to_image_fits_block_witness :
  exists a, to_image m_neg [4; 4] = Ok (PyArr a) /\
            np.item a 1 1 = Some 1%Q.
Proof.
  assert (Hn : Mask_ok m_neg).
  { apply Mask_ok_sample; [|reflexivity]. repeat constructor. }
  assert (Bn : bbox_ok (bbox m_neg)) by (unfold bbox_ok; simpl; lia).
  assert (H4 : 0 <= 4) by lia.
  assert (Hf : fits (bbox m_neg) 4 4)
    by (unfold fits, axis_fits; simpl; lia).
  destruct (to_image_fits_block m_neg 4 4 Hn Bn H4 H4 Hf) as (a & Ea & _ & Ia).
  exists a. split; [exact Ea|].
  exact (Ia 1%nat 1%nat ltac:(lia) ltac:(lia)).
Defined.
